(** * powerfour: employee compensation copilot

    A shallow embedding of the decision logic of the repository and the
    properties stated about it.

    - [Js]     : the fragment of JavaScript values the front end computes
                 with (numbers that may be absent, division, upper-casing).
    - [Api]    : the wire types of [frontend/src/api.ts].
    - [App]    : the pure computations of [frontend/src/App.tsx]
                 ([mapBackendAction], [mapUIActionToBackend], [orgSummary],
                 [selectedDecision], the employee table rows).
    - [Core]   : the decision core behind [/api/analyze] and [/api/action]
                 (profitability, rule engine, budget reconciler, aggregator,
                 action ledger), after the design document.
    - [Sample] : concrete employees, candidates and requests.

    Amounts (salary, revenue, budget) are integral: the UI formats them
    with [maximumFractionDigits: 0].  They are modelled as [Z], the range
    in which JavaScript number arithmetic on them is exact.  Ratios (margin,
    confidence, change percent) are exact rationals. *)

From Stdlib Require Import ZArith QArith Qround Qabs Qminmax Ascii String List Lia Bool.
From Stdlib Require Import DecimalString Sorted Lqa.
From Corelib Require PrimFloat.
From Stdlib Require Uint63.
From stdpp Require Import base list gmap strings.

Local Open Scope string_scope.
Local Open Scope Z_scope.

(* ===================================================================== *)
(** ** JavaScript values                                                  *)
(* ===================================================================== *)

Module Js.

(** The result of a JavaScript division: a finite value, an infinity or
    NaN.  Finite quotients are kept exact. *)
Inductive num : Type :=
| Fin (q : Q)
| PosInf
| NegInf
| NaN.

Definition isFinite (n : num) : bool :=
  match n with Fin _ => true | _ => false end.

(** [a / b] on two finite integral numbers. *)
Definition div (a b : Z) : num :=
  if b =? 0 then
    if a =? 0 then NaN else if 0 <? a then PosInf else NegInf
  else Fin (inject_Z a / inject_Z b)%Q.

(** A numeric field read from a JSON object: [None] stands for an absent
    value ([undefined]). *)
Definition field := option Z.

(** [x || 0]. *)
Definition orZero (x : field) : Z :=
  match x with
  | Some v => v
  | None => 0
  end.

(** Truthiness of a numeric field, as tested by [x ? a : b]. *)
Definition truthy (x : field) : bool :=
  match x with
  | Some v => negb (v =? 0)
  | None => false
  end.

(** [x - y] where an operand may be absent: [undefined] coerces to NaN.
    (A JSON [null] would coerce to 0; [None] is the absent member only.) *)
Definition sub (x y : field) : option Z :=
  match x, y with
  | Some a, Some b => Some (a - b)
  | _, _ => None
  end.

(** Strings are sequences of ASCII characters (codes below 128), the
    alphabet of the action names on the wire. *)
Fixpoint isAscii (s : string) : bool :=
  match s with
  | EmptyString => true
  | String c r => (nat_of_ascii c <? 128)%nat && isAscii r
  end.

(** [String.prototype.toUpperCase] on ASCII strings: the letters [a]..[z]
    are mapped to [A]..[Z], every other character is kept. *)
Definition upper_ascii (c : ascii) : ascii :=
  let n := nat_of_ascii c in
  if ((97 <=? n) && (n <=? 122))%nat then ascii_of_nat (n - 32) else c.

Definition lower_ascii (c : ascii) : ascii :=
  let n := nat_of_ascii c in
  if ((65 <=? n) && (n <=? 90))%nat then ascii_of_nat (n + 32) else c.

(** [String.prototype.toUpperCase] on ASCII strings.  Outside ASCII the
    JavaScript function also maps some characters to ASCII letters (U+0131,
    U+FB01), so statements about it carry the hypothesis [isAscii]. *)
Fixpoint toUpperCase (s : string) : string :=
  match s with
  | EmptyString => EmptyString
  | String c r => String (upper_ascii c) (toUpperCase r)
  end.

Fixpoint toLowerCase (s : string) : string :=
  match s with
  | EmptyString => EmptyString
  | String c r => String (lower_ascii c) (toLowerCase r)
  end.

(** Two strings that differ at most in the case of their letters. *)
Fixpoint sameUpToCase (s t : string) : bool :=
  match s, t with
  | EmptyString, EmptyString => true
  | String a s', String b t' =>
      (Ascii.eqb a b || Ascii.eqb (upper_ascii a) b || Ascii.eqb a (upper_ascii b))
      && sameUpToCase s' t'
  | _, _ => false
  end.

(** Every character code, for case analyses by enumeration. *)
Definition allAscii : list ascii := map ascii_of_nat (seq 0 256).

End Js.

(* ===================================================================== *)
(** ** Wire types ([frontend/src/api.ts])                                 *)
(* ===================================================================== *)

Module Api.

(** The records keep the fields the computations read or write; display
    strings ([...Formatted]) and storage keys ([_id]) are left out, and the
    time of application is a number. *)

Inductive PerformanceBand := elite | strong | stable | risk.
Inductive ExperienceBand := principal | senior | mid | junior.
Inductive DecisionAction := FIRE | PROMOTE | DECREASE_SALARY | NO_CHANGE.

#[global] Instance DecisionAction_eq_dec : EqDecision DecisionAction.
Proof. solve_decision. Defined.

(** The spelling of each action on the wire. *)
Definition actionName (a : DecisionAction) : string :=
  match a with
  | FIRE => "FIRE"
  | PROMOTE => "PROMOTE"
  | DECREASE_SALARY => "DECREASE_SALARY"
  | NO_CHANGE => "NO_CHANGE"
  end.

Record Suggestion := {
  action : option string;
  confidence : option Q;
  reasoning : string;
  suggestedSalary : option Z;
  recommended_change_percent : option Q
}.

Record Employee := {
  ssid : string;
  name : string;
  role : string;
  performance : PerformanceBand;
  experience : ExperienceBand;
  salary : Js.field;
  revenue : Js.field;
  status : string;
  suggestion : option Suggestion
}.

Record ActionDetails := {
  effect : string;
  previousSalary : option Z;
  newSalary : option Z;
  flatSalary : option Z;
  changePercent : option Q
}.

Record ActionRecord := {
  ar_ssid : string;
  ar_action : string;
  ar_note : option string;
  ar_details : ActionDetails;
  ar_appliedAt : Z
}.

End Api.

(* ===================================================================== *)
(** ** The front end ([frontend/src/App.tsx])                              *)
(* ===================================================================== *)

Module App.
Import Api.

Inductive UIDecisionAction := increase | decrease | keep | fire.

(** [mapBackendAction]: the argument is [None] when no action string is
    supplied; the empty string is falsy as well. *)
Definition mapBackendAction (action : option string) : UIDecisionAction :=
  match action with
  | None => keep
  | Some a =>
      if String.eqb a "" then keep
      else
        let u := Js.toUpperCase a in
        if String.eqb u "FIRE" then fire
        else if String.eqb u "PROMOTE" then increase
        else if String.eqb u "DECREASE_SALARY" then decrease
        else keep
  end.

Definition mapUIActionToBackend (action : UIDecisionAction) : DecisionAction :=
  match action with
  | fire => FIRE
  | increase => PROMOTE
  | decrease => DECREASE_SALARY
  | keep => NO_CHANGE
  end.

(** [(emp.revenue || 0) - (emp.salary || 0)] *)
Definition profitOf (emp : Employee) : Z :=
  Js.orZero (revenue emp) - Js.orZero (salary emp).

(** [emp.revenue ? profit / emp.revenue : 0] *)
Definition marginOf (emp : Employee) : Js.num :=
  if Js.truthy (revenue emp)
  then Js.div (profitOf emp) (Js.orZero (revenue emp))
  else Js.Fin 0.

(** The accumulator of the reduction in [orgSummary]. *)
Record Totals := {
  atRisk : Z;
  totalSalary : Z;
  totalRevenue : Z;
  netProfit : Z
}.

Definition noTotals : Totals :=
  {| atRisk := 0; totalSalary := 0; totalRevenue := 0; netProfit := 0 |}.

(** The step of the reduction.  Amounts are integers: the sums are those
    of the code on the lists of [exactRange], where no addition of doubles
    rounds; [AppF] has the same reduction on doubles. *)
Definition addEmployee (acc : Totals) (emp : Employee) : Totals :=
  let salary := Js.orZero (salary emp) in
  let revenue := Js.orZero (revenue emp) in
  let profit := revenue - salary in
  {| atRisk := if profit <? 0 then atRisk acc + 1 else atRisk acc;
     totalSalary := totalSalary acc + salary;
     totalRevenue := totalRevenue acc + revenue;
     netProfit := netProfit acc + profit |}.

Definition orgTotals (employees : list Employee) : Totals :=
  fold_left addEmployee employees noTotals.

Record OrgSummary := {
  totals : Totals;
  margin : Js.num
}.

Definition orgSummary (employees : list Employee) : OrgSummary :=
  let t := orgTotals employees in
  {| totals := t;
     margin := if totalRevenue t =? 0 then Js.Fin 0
               else Js.div (netProfit t) (totalRevenue t) |}.

(** [employees.find(emp => emp.ssid === id) ?? employees[0]] *)
Definition selectedEmployee (employees : list Employee)
           (selectedEmployeeId : option string) : option Employee :=
  let found :=
    match selectedEmployeeId with
    | Some id => find (fun emp => String.eqb (ssid emp) id) employees
    | None => None
    end in
  match found with
  | Some emp => Some emp
  | None => head employees
  end.

Record Decision := {
  d_action : UIDecisionAction;
  d_reason : string;
  d_confidence : Q;
  d_profitability : Z;
  d_margin : Js.num;
  d_suggestedSalary : option Z;
  d_changePercent : option Q
}.

Definition orText (s dflt : string) : string :=
  if String.eqb s "" then dflt else s.

Definition orZeroQ (x : option Q) : Q :=
  match x with
  | Some q => if Qeq_bool q 0 then 0%Q else q
  | None => 0%Q
  end.

(** The margin of the branch taken before any analysis: here the
    difference [revenue - salary] is formed without the [|| 0] guards. *)
Definition marginUnanalysed (emp : Employee) : Js.num :=
  if Js.truthy (revenue emp)
  then match Js.sub (revenue emp) (salary emp) with
       | Some p => Js.div p (Js.orZero (revenue emp))
       | None => Js.NaN
       end
  else Js.Fin 0.

Definition selectedDecision (sel : option Employee) : Decision :=
  match sel with
  | None =>
      {| d_action := keep;
         d_reason := "No analysis performed yet. Run analysis to get AI recommendations.";
         d_confidence := 0;
         d_profitability := 0;
         d_margin := Js.Fin 0;
         d_suggestedSalary := None;
         d_changePercent := None |}
  | Some emp =>
      match suggestion emp with
      | None =>
          {| d_action := keep;
             d_reason := "No analysis performed yet. Run analysis to get AI recommendations.";
             d_confidence := 0;
             d_profitability := profitOf emp;
             d_margin := marginUnanalysed emp;
             d_suggestedSalary := None;
             d_changePercent := None |}
      | Some sg =>
          {| d_action := mapBackendAction (action sg);
             d_reason := orText (reasoning sg) "AI analysis complete.";
             d_confidence := orZeroQ (confidence sg);
             d_profitability := profitOf emp;
             d_margin := marginOf emp;
             d_suggestedSalary := suggestedSalary sg;
             d_changePercent := recommended_change_percent sg |}
      end
  end.

(** One row of the employee table. *)
Record Row := {
  row_ssid : string;
  row_profit : Z;
  row_margin : Js.num;
  row_action : UIDecisionAction
}.

Definition notFired (emp : Employee) : bool :=
  negb (String.eqb (status emp) "FIRED").

Definition tableRows (employees : list Employee) : list Row :=
  map (fun employee =>
         {| row_ssid := ssid employee;
            row_profit := profitOf employee;
            row_margin := marginOf employee;
            row_action :=
              mapBackendAction
                (match suggestion employee with
                 | Some sg => action sg
                 | None => None
                 end) |})
      (filter (fun emp => notFired emp = true) employees).

(** The request [handleApplyAction] sends for the selected employee. *)
Record ApplyRequest := {
  rq_ssid : string;
  rq_action : DecisionAction;
  rq_note : option string;
  rq_changePercent : option Q
}.

Definition handleApplyAction (sel : option Employee) (a : UIDecisionAction)
  : option ApplyRequest :=
  match sel with
  | None => None
  | Some emp =>
      Some {| rq_ssid := ssid emp;
              rq_action := mapUIActionToBackend a;
              rq_note := None;
              rq_changePercent := d_changePercent (selectedDecision sel) |}
  end.

End App.

(* ===================================================================== *)
(** ** The decision core                                                  *)
(* ===================================================================== *)

(** The server side of the repository (the routes behind [/api/analyze] and
    [/api/action], and the storage layer) is specified in the repository's
    design document, sections 4.1 to 4.5; the definitions of this module
    follow that text.  Amounts are integral numbers of the currency's
    smallest unit. *)

Module Core.
Import Api.

(** *** Data model (section 3) *)

Inductive LifecycleStatus := Active | Fired.

Record MarketBand := { mb_min : Z; mb_mid : Z; mb_max : Z }.

Record EmployeeRecord := {
  e_ssid : string;
  e_name : string;
  e_role : string;
  e_performance : PerformanceBand;
  e_experience : ExperienceBand;
  e_salary : Z;
  e_revenue : Z;
  e_status : LifecycleStatus
}.

Definition isActive (e : EmployeeRecord) : bool :=
  match e_status e with Active => true | Fired => false end.

(** *** Profitability Evaluator (section 4.1) *)

Record Signals := {
  sg_profit : Z;
  sg_margin : Q;
  sg_performance : PerformanceBand;
  sg_experience : ExperienceBand;
  sg_market : MarketBand
}.

(** Modelled from the spec: the Profitability Evaluator of section 4.1
    (server code).  [profit = revenue - salary]; [margin = profit /
    revenue], and 0 when revenue is 0. *)
Definition marginQ (profit revenue : Z) : Q :=
  if revenue =? 0 then 0%Q else (inject_Z profit / inject_Z revenue)%Q.

Definition evaluate (market : string -> ExperienceBand -> MarketBand)
           (e : EmployeeRecord) : Signals :=
  let profit := e_revenue e - e_salary e in
  {| sg_profit := profit;
     sg_margin := marginQ profit (e_revenue e);
     sg_performance := e_performance e;
     sg_experience := e_experience e;
     sg_market := market (e_role e) (e_experience e) |}.

(** *** Suggestion Rule Engine (section 4.2) *)

(** A rule is a predicate on the signals paired with the outcome it
    produces (section 9: an ordered list of predicate-outcome pairs).  The
    suggested salary may also use the current salary. *)
Record Rule := {
  r_matches : Signals -> bool;
  r_action : DecisionAction;
  r_confidence : Signals -> Q;
  r_rationale : Signals -> string;
  r_suggested : Signals -> Z -> option Z
}.

Record RuleConfig := {
  rules : list Rule;
  fallback : Rule
}.

Record Outcome := {
  o_action : DecisionAction;
  o_confidence : Q;
  o_rationale : string;
  o_suggestedSalary : option Z;
  o_changePercent : option Q
}.

Definition Qltb (a b : Q) : bool := negb (Qle_bool b a).

(** Confidence is a number in [0,1]: capped at 1.0, floored at 0. *)
Definition clamp01 (q : Q) : Q :=
  if Qle_bool q 0 then 0%Q else if Qle_bool 1 q then 1%Q else q.

(** [(suggested - current) / current * 100] *)
Definition changePercentOf (current suggested : Z) : option Q :=
  if current =? 0 then None
  else Some ((inject_Z (suggested - current) / inject_Z current) * 100)%Q.

Definition outcomeOf (r : Rule) (s : Signals) (current : Z) : Outcome :=
  let sug := r_suggested r s current in
  {| o_action := r_action r;
     o_confidence := clamp01 (r_confidence r s);
     o_rationale := r_rationale r s;
     o_suggestedSalary := sug;
     o_changePercent :=
       match sug with
       | Some v => changePercentOf current v
       | None => None
       end |}.

(** Modelled from the spec: the decision policy of section 4.2 (server
    code), first matching rule wins: [Fires s rs fb r] holds when [r] is the
    rule the ordered list [rs] (with last resort [fb]) selects on [s]. *)
Inductive Fires (s : Signals) : list Rule -> Rule -> Rule -> Prop :=
| fires_here r rs fb :
    r_matches r s = true -> Fires s (r :: rs) fb r
| fires_later r rs fb r' :
    r_matches r s = false -> Fires s rs fb r' -> Fires s (r :: rs) fb r'
| fires_fallback fb :
    Fires s [] fb fb.

(** One run of the engine, as a relation between inputs and outcome. *)
Definition Suggests (cfg : RuleConfig) (s : Signals) (current : Z)
           (o : Outcome) : Prop :=
  exists r, Fires s (rules cfg) (fallback cfg) r /\ o = outcomeOf r s current.

(** Modelled from the spec: the Suggestion Rule Engine of section 4.2
    (server code), as the function that walks the ordered rules. *)
Fixpoint selectRule (s : Signals) (rs : list Rule) (fb : Rule) : Rule :=
  match rs with
  | [] => fb
  | r :: rest => if r_matches r s then r else selectRule s rest fb
  end.

Definition suggest (cfg : RuleConfig) (s : Signals) (current : Z) : Outcome :=
  outcomeOf (selectRule s (rules cfg) (fallback cfg)) s current.

(** The four rules of section 4.2 over a table of thresholds. *)
Record Thresholds := {
  lowMargin : Q;
  marginalMargin : Q;
  highMargin : Q;
  cutRatio : Q;
  raiseRatio : Q
}.

Definition isLowBand (p : PerformanceBand) : bool :=
  match p with risk => true | _ => false end.

Definition isTopBand (p : PerformanceBand) : bool :=
  match p with elite | strong => true | _ => false end.

Definition showZ (z : Z) : string :=
  DecimalString.NilEmpty.string_of_int (Z.to_int z).

Definition showQ (q : Q) : string :=
  showZ (Qnum q) ++ "/" ++ showZ (Zpos (Qden q)).

Definition template (rule : string) (s : Signals) : string :=
  rule ++ ": profit " ++ showZ (sg_profit s)
       ++ ", margin " ++ showQ (Qred (sg_margin s))
       ++ ", market " ++ showZ (mb_min (sg_market s))
       ++ "-" ++ showZ (mb_mid (sg_market s))
       ++ "-" ++ showZ (mb_max (sg_market s)).

(** The salary rule 3 raises towards: market mid for the strong band,
    market max for the elite band. *)
Definition raiseTarget (s : Signals) : Z :=
  match sg_performance s with
  | elite => mb_max (sg_market s)
  | _ => mb_mid (sg_market s)
  end.

(** Moving [current] towards [target] by [ratio] of the gap. *)
Definition interpolate (ratio : Q) (current target : Z) : Z :=
  Qfloor (inject_Z current + ratio * inject_Z (target - current) + (1#2))%Q.

(** The current salary implied by profit and margin (margin not 0). *)
Definition impliedSalary (s : Signals) : Z :=
  Qfloor (inject_Z (sg_profit s) * (1 - sg_margin s) / sg_margin s)%Q.

Definition fireRule (th : Thresholds) : Rule :=
  {| r_matches := fun s => Qltb (sg_margin s) (lowMargin th)
                           && isLowBand (sg_performance s);
     r_action := FIRE;
     r_confidence := fun s => ((1#2) + (lowMargin th - sg_margin s) / 2)%Q;
     r_rationale := template "FIRE";
     r_suggested := fun _ _ => None |}.

Definition decreaseRule (th : Thresholds) : Rule :=
  {| r_matches := fun s => Qltb (sg_margin s) (marginalMargin th)
                           && negb (isLowBand (sg_performance s));
     r_action := DECREASE_SALARY;
     r_confidence := fun s => ((1#2) + (marginalMargin th - sg_margin s) / 2)%Q;
     r_rationale := template "DECREASE_SALARY";
     r_suggested := fun s current =>
       let floor_ := Z.min current (mb_min (sg_market s)) in
       Some (Z.max floor_ (interpolate (cutRatio th) current floor_)) |}.

Definition promoteRule (th : Thresholds) : Rule :=
  {| r_matches := fun s => Qle_bool (highMargin th) (sg_margin s)
                           && isTopBand (sg_performance s)
                           && (impliedSalary s <? raiseTarget s);
     r_action := PROMOTE;
     r_confidence := fun s => ((1#2) + (sg_margin s - highMargin th) / 2)%Q;
     r_rationale := template "PROMOTE";
     r_suggested := fun s current =>
       let target := Z.max current (raiseTarget s) in
       Some (Z.min target (interpolate (raiseRatio th) current target)) |}.

Definition Qabs_gap (a b : Q) : Q := Qabs (a - b).

Definition noChangeRule (th : Thresholds) : Rule :=
  {| r_matches := fun _ => true;
     r_action := NO_CHANGE;
     r_confidence := fun s =>
       let m := sg_margin s in
       let g1 := Qabs_gap m (lowMargin th) in
       let g2 := Qabs_gap m (marginalMargin th) in
       let g3 := Qabs_gap m (highMargin th) in
       Qmin g1 (Qmin g2 g3);
     r_rationale := template "NO_CHANGE";
     r_suggested := fun _ _ => None |}.

Definition policy (th : Thresholds) : RuleConfig :=
  {| rules := [fireRule th; decreaseRule th; promoteRule th];
     fallback := noChangeRule th |}.

(** *** Candidates and the Budget Reconciler (section 4.3) *)

Record Candidate := {
  c_ssid : string;
  c_salary : Z;
  c_revenue : Z;
  c_performance : PerformanceBand;
  c_action : DecisionAction;
  c_confidence : Q;
  c_rationale : string;
  c_suggestedSalary : option Z;
  c_changePercent : option Q
}.

Definition candidateOf (cfg : RuleConfig)
           (market : string -> ExperienceBand -> MarketBand)
           (e : EmployeeRecord) : Candidate :=
  let o := suggest cfg (evaluate market e) (e_salary e) in
  {| c_ssid := e_ssid e;
     c_salary := e_salary e;
     c_revenue := e_revenue e;
     c_performance := e_performance e;
     c_action := o_action o;
     c_confidence := o_confidence o;
     c_rationale := o_rationale o;
     c_suggestedSalary := o_suggestedSalary o;
     c_changePercent := o_changePercent o |}.

(** Modelled from the spec: the payroll contribution of one suggestion
    (sections 4.3 and 4.4, server code): nothing for FIRE, otherwise the
    suggested salary if present, else the current salary. *)
Definition contribution (c : Candidate) : Z :=
  match c_action c with
  | FIRE => 0
  | _ => match c_suggestedSalary c with
         | Some s => s
         | None => c_salary c
         end
  end.

Fixpoint aggregate (cs : list Candidate) : Z :=
  match cs with
  | [] => 0
  | c :: rest => contribution c + aggregate rest
  end.

(** Severity of an action; NO_CHANGE and PROMOTE share the lowest level. *)
Definition severity (a : DecisionAction) : nat :=
  match a with
  | NO_CHANGE | PROMOTE => 0
  | DECREASE_SALARY => 1
  | FIRE => 2
  end.

(** The employees the reconciler may escalate: those whose candidate is
    NO_CHANGE or PROMOTE. *)
Definition escalatable (c : Candidate) : bool :=
  match c_action c with
  | NO_CHANGE | PROMOTE => true
  | _ => false
  end.

Definition perfRank (p : PerformanceBand) : Z :=
  match p with risk => 0 | stable => 1 | strong => 2 | elite => 3 end.

Definition profitOfCandidate (c : Candidate) : Z := c_revenue c - c_salary c.

(** Ascending profitability, then ascending performance band, then the
    identifier. *)
Definition priorityLe (a b : Candidate) : bool :=
  if profitOfCandidate a <? profitOfCandidate b then true
  else if profitOfCandidate b <? profitOfCandidate a then false
  else if perfRank (c_performance a) <? perfRank (c_performance b) then true
  else if perfRank (c_performance b) <? perfRank (c_performance a) then false
  else String.leb (c_ssid a) (c_ssid b).

Fixpoint insertBy {A} (le : A -> A -> bool) (x : A) (l : list A) : list A :=
  match l with
  | [] => [x]
  | y :: rest => if le x y then x :: l else y :: insertBy le x rest
  end.

Fixpoint sortBy {A} (le : A -> A -> bool) (l : list A) : list A :=
  match l with
  | [] => []
  | x :: rest => insertBy le x (sortBy le rest)
  end.

(** Positions of the escalatable candidates, in priority order. *)
Definition priorityOrder (cs : list Candidate) : list nat :=
  map fst
    (sortBy (fun a b => priorityLe (snd a) (snd b))
       (filter (fun ic => escalatable (snd ic) = true) (imap pair cs))).

Section Reconciler.

(** The decreased figure given to an employee escalated to
    DECREASE_SALARY; configuration of the reconciler. *)
Variable cut : Candidate -> Z.

(** Modelled from the spec: one escalation step of section 4.3 (server
    code), one severity level up: NO_CHANGE and PROMOTE become
    DECREASE_SALARY at the decreased figure, DECREASE_SALARY becomes FIRE,
    and a FIRE candidate is left as it is. *)
Definition escalate (c : Candidate) : Candidate :=
  match c_action c with
  | FIRE => c
  | DECREASE_SALARY =>
      {| c_ssid := c_ssid c; c_salary := c_salary c;
         c_revenue := c_revenue c; c_performance := c_performance c;
         c_action := FIRE;
         c_confidence := c_confidence c; c_rationale := c_rationale c;
         c_suggestedSalary := None; c_changePercent := None |}
  | NO_CHANGE | PROMOTE =>
      {| c_ssid := c_ssid c; c_salary := c_salary c;
         c_revenue := c_revenue c; c_performance := c_performance c;
         c_action := DECREASE_SALARY;
         c_confidence := c_confidence c; c_rationale := c_rationale c;
         c_suggestedSalary := Some (cut c);
         c_changePercent := changePercentOf (c_salary c) (cut c) |}
  end.

(** [EscalatedTo c c']: [c'] is [c] after zero or more escalations. *)
Inductive EscalatedTo (c : Candidate) : Candidate -> Prop :=
| escalated_none : EscalatedTo c c
| escalated_more c' : EscalatedTo c c' -> EscalatedTo c (escalate c').

(** One escalation of position [i], unless the running aggregate
    already fits the budget. *)
Definition escalateAt (budget : Z) (i : nat) (cs : list Candidate)
  : list Candidate :=
  if aggregate cs <=? budget then cs else alter escalate i cs.

(** Walk the priority order; the employee at hand is escalated level by
    level (at most two levels from NO_CHANGE or PROMOTE to FIRE) before
    the next one is considered, the aggregate being recomputed after
    each escalation. *)
Definition walk (budget : Z) (order : list nat) (cs : list Candidate)
  : list Candidate :=
  fold_left (fun acc i => escalateAt budget i (escalateAt budget i acc))
            order cs.

(** Modelled from the spec: the Budget Reconciler of section 4.3 (server
    code).  Candidates within budget are accepted unchanged; otherwise
    the priority order is walked until the aggregate fits or the order
    is exhausted. *)
Definition reconcile (budget : Z) (cs : list Candidate) : list Candidate :=
  if aggregate cs <=? budget then cs
  else walk budget (priorityOrder cs) cs.

End Reconciler.

(** A decreased figure that moves the salary towards [floor_] by [ratio]
    of the gap and never below it. *)
Definition cutTowards (ratio : Q) (floor_ : Z) (c : Candidate) : Z :=
  let lo := Z.min (c_salary c) floor_ in
  Z.max lo (Z.min (c_salary c) (interpolate ratio (c_salary c) lo)).



(** *** Analysis Aggregator (section 4.4) *)

Inductive SavingsType := savings | increase.

Record ActionCounts := {
  n_fire : nat; n_promote : nat; n_decrease : nat; n_nochange : nat
}.

Record AnalysisSummary := {
  companyBudget : Z;
  totalCurrentSalaries : Z;
  totalSuggestedSalaries : Z;
  totalRevenue : Z;
  projectedSavings : Z;
  projectedSavingsType : SavingsType;
  actionCounts : ActionCounts
}.

Definition countAction (a : DecisionAction) (cs : list Candidate) : nat :=
  length (filter (fun c => c_action c = a) cs).

Fixpoint sumOf (f : Candidate -> Z) (cs : list Candidate) : Z :=
  match cs with
  | [] => 0
  | c :: rest => f c + sumOf f rest
  end.

(** Modelled from the spec: the Analysis Aggregator of section 4.4 (server
    code), a reduction over the final suggestion list. *)
Definition summarize (budget : Z) (finals : list Candidate) : AnalysisSummary :=
  let current := sumOf c_salary finals in
  let suggested := sumOf contribution finals in
  {| companyBudget := budget;
     totalCurrentSalaries := current;
     totalSuggestedSalaries := suggested;
     totalRevenue := sumOf c_revenue finals;
     projectedSavings := current - suggested;
     projectedSavingsType := if 0 <=? current - suggested then savings else increase;
     actionCounts :=
       {| n_fire := countAction FIRE finals;
          n_promote := countAction PROMOTE finals;
          n_decrease := countAction DECREASE_SALARY finals;
          n_nochange := countAction NO_CHANGE finals |} |}.

(** The budget-exceeded condition a caller reads off the summary. *)
Definition budgetExceeded (s : AnalysisSummary) : bool :=
  companyBudget s <? totalSuggestedSalaries s.

Inductive AnalyzeError := InvalidBudget.

Record Analysis := {
  an_summary : AnalysisSummary;
  an_results : list Candidate
}.

(** The employees an analysis looks at: the active ones, within the
    identifier subset when one is supplied. *)
Definition analysed (ssids : option (list string)) (e : EmployeeRecord) : bool :=
  isActive e
  && match ssids with
     | None => true
     | Some ids => existsb (String.eqb (e_ssid e)) ids
     end.

(** Modelled from the spec: the Analyze operation of section 6 (server
    code): active employees only, evaluated, reconciled, summarised. *)
Definition analyze (cfg : RuleConfig)
           (market : string -> ExperienceBand -> MarketBand)
           (cut : Candidate -> Z) (budget : Z) (ssids : option (list string))
           (employees : list EmployeeRecord) : AnalyzeError + Analysis :=
  if budget <=? 0 then inl InvalidBudget
  else
    let active := filter (fun e => analysed ssids e = true) employees in
    let finals := reconcile cut budget (map (candidateOf cfg market) active) in
    inr {| an_summary := summarize budget finals; an_results := finals |}.

(** *** Action Ledger (section 4.5) *)

(** The authoritative state: employee records keyed by [ssid], and the
    append-only ledger in application order. *)
Record Store := {
  employees : gmap string EmployeeRecord;
  ledger : list ActionRecord
}.

Inductive Error := NotFound | InvalidAction | InvalidChangePercent | StorageFailure.

(** The two writes the storage collaborator offers inside a transaction. *)
Inductive Effect :=
| UpdateEmployee (id : string) (e : EmployeeRecord)
| AppendLedger (r : ActionRecord).

Definition applyEffect (st : Store) (ef : Effect) : Store :=
  match ef with
  | UpdateEmployee id e =>
      {| employees := <[id := e]> (employees st); ledger := ledger st |}
  | AppendLedger r =>
      {| employees := employees st; ledger := ledger st ++ [r] |}
  end.

(** A transaction works on a private copy of the store and logs its
    writes; it may fail at any step. *)
Record TxState := { tx_work : Store; tx_log : list Effect }.

Definition Tx (A : Type) : Type := TxState -> Error + (A * TxState).

Definition ret {A} (a : A) : Tx A := fun ts => inr (a, ts).

Definition bind {A B} (m : Tx A) (k : A -> Tx B) : Tx B :=
  fun ts =>
    match m ts with
    | inl err => inl err
    | inr (a, ts') => k a ts'
    end.

Definition fail {A} (err : Error) : Tx A := fun _ => inl err.

Declare Scope tx_scope.
Delimit Scope tx_scope with tx.
Notation "'let*' x ':=' m 'in' k" := (bind m (fun x => k))
  (at level 10, x pattern, m at level 100, k at level 200) : tx_scope.

Definition perform (ef : Effect) : Tx unit :=
  fun ts => inr (tt, {| tx_work := applyEffect (tx_work ts) ef;
                        tx_log := tx_log ts ++ [ef] |}).

Definition readStore : Tx Store := fun ts => inr (tx_work ts, ts).

Definition orFail {A} (err : Error) (x : option A) : Tx A :=
  match x with
  | Some a => ret a
  | None => fail err
  end.

Definition liftResult {A} (x : Error + A) : Tx A :=
  match x with
  | inl err => fail err
  | inr a => ret a
  end.

(** Places where the storage layer can be made to fail. *)
Inductive FaultPoint := BeforeUpdate | BetweenUpdateAndAppend | BeforeCommit.

Definition failpoint (faults : FaultPoint -> bool) (p : FaultPoint) : Tx unit :=
  if faults p then fail StorageFailure else ret tt.

Definition noFaults : FaultPoint -> bool := fun _ => false.

(** Modelled from the spec: the transactional update of the storage
    collaborator (sections 5 and 6, server code).  The outcome of running a
    transaction against the store is its result, the store afterwards, and
    the writes that were committed; a failed transaction commits nothing.
    That the update commits all or nothing is the contract the spec gives
    this operation: it is part of the model here, not a result about it. *)
Record Committed (A : Type) := {
  result : Error + A;
  store : Store;
  effects : list Effect
}.
Arguments result {A} _.
Arguments store {A} _.
Arguments effects {A} _.

Definition transact {A} (tx : Tx A) (st : Store) : Committed A :=
  match tx {| tx_work := st; tx_log := [] |} with
  | inl err => {| result := inl err; store := st; effects := [] |}
  | inr (a, ts) => {| result := inr a; store := tx_work ts; effects := tx_log ts |}
  end.

Record ApplyRequest := {
  rq_ssid : string;
  rq_action : string;
  rq_note : option string;
  rq_changePercent : option Q
}.

(** The four recognised kinds, in their exact spelling. *)
Definition parseAction (s : string) : option DecisionAction :=
  if String.eqb s "FIRE" then Some FIRE
  else if String.eqb s "PROMOTE" then Some PROMOTE
  else if String.eqb s "DECREASE_SALARY" then Some DECREASE_SALARY
  else if String.eqb s "NO_CHANGE" then Some NO_CHANGE
  else None.

Definition needsPercent (a : DecisionAction) : bool :=
  match a with
  | DECREASE_SALARY | PROMOTE => true
  | FIRE | NO_CHANGE => false
  end.

(** Rounding to the nearest unit, halves upwards. *)
Definition roundQ (q : Q) : Z := Qfloor (q + (1#2))%Q.

(** Modelled from the spec: the new salary of section 4.5 (server code),
    [currentSalary * (1 + changePercent / 100)], rounded. *)
Definition newSalaryOf (current : Z) (pct : Q) : Z :=
  roundQ (inject_Z current * (1 + pct / 100))%Q.

Definition lookupActive (st : Store) (id : string) : option EmployeeRecord :=
  match employees st !! id with
  | Some e => if isActive e then Some e else None
  | None => None
  end.

Definition effectText (a : DecisionAction) : string :=
  match a with
  | FIRE => "terminated"
  | PROMOTE => "salary increased"
  | DECREASE_SALARY => "salary decreased"
  | NO_CHANGE => "no action taken"
  end.

Definition withSalary (e : EmployeeRecord) (s : Z) : EmployeeRecord :=
  {| e_ssid := e_ssid e; e_name := e_name e; e_role := e_role e;
     e_performance := e_performance e; e_experience := e_experience e;
     e_salary := s; e_revenue := e_revenue e; e_status := e_status e |}.

Definition withStatus (e : EmployeeRecord) (st : LifecycleStatus) : EmployeeRecord :=
  {| e_ssid := e_ssid e; e_name := e_name e; e_role := e_role e;
     e_performance := e_performance e; e_experience := e_experience e;
     e_salary := e_salary e; e_revenue := e_revenue e; e_status := st |}.

(** Modelled from the spec: the effects by action of section 4.5 (server
    code): what an action does to one employee record, with the details the
    ledger entry carries. *)
Definition effectOn (e : EmployeeRecord) (a : DecisionAction) (pct : option Q)
  : Error + (EmployeeRecord * ActionDetails) :=
  match a with
  | FIRE =>
      inr (withStatus e Fired,
           {| effect := effectText FIRE;
              previousSalary := Some (e_salary e);
              newSalary := None; flatSalary := None; changePercent := None |})
  | NO_CHANGE =>
      inr (e,
           {| effect := effectText NO_CHANGE;
              previousSalary := None; newSalary := None;
              flatSalary := None; changePercent := None |})
  | DECREASE_SALARY | PROMOTE =>
      match pct with
      | None => inl InvalidChangePercent
      | Some p =>
          let s := newSalaryOf (e_salary e) p in
          if s <? 0 then inl InvalidChangePercent
          else inr (withSalary e s,
                    {| effect := effectText a;
                       previousSalary := Some (e_salary e);
                       newSalary := Some s;
                       flatSalary := None; changePercent := Some p |})
      end
  end.

Definition isNone {A} (x : option A) : bool :=
  match x with None => true | Some _ => false end.

Local Open Scope tx_scope.

(** Modelled from the spec: the ApplyAction operation of sections 4.5, 5
    and 7 (server code behind [POST /api/action]).  Input validation comes
    first, then the lookup of the active record, then one record update and
    one ledger append inside a transaction. *)
Definition applyAction (faults : FaultPoint -> bool) (now : Z)
           (rq : ApplyRequest) : Tx (ActionRecord * EmployeeRecord) :=
  let* a := orFail InvalidAction (parseAction (rq_action rq)) in
  let* _ := (if needsPercent a && isNone (rq_changePercent rq)
             then fail InvalidChangePercent else ret tt) in
  let* st := readStore in
  let* e := orFail NotFound (lookupActive st (rq_ssid rq)) in
  let* upd := liftResult (effectOn e a (rq_changePercent rq)) in
  let applied :=
    {| ar_ssid := rq_ssid rq;
       ar_action := actionName a;
       ar_note := rq_note rq;
       ar_details := snd upd;
       ar_appliedAt := now |} in
  let* _ := failpoint faults BeforeUpdate in
  let* _ := perform (UpdateEmployee (rq_ssid rq) (fst upd)) in
  let* _ := failpoint faults BetweenUpdateAndAppend in
  let* _ := perform (AppendLedger applied) in
  let* _ := failpoint faults BeforeCommit in
  ret (applied, fst upd).

Local Close Scope tx_scope.

End Core.

(* ===================================================================== *)
(** ** Sample data                                                        *)
(* ===================================================================== *)

Module Sample.
Import Api.

(** A terminated employee as the employee list of the front end holds it. *)
Definition firedEmployee : Employee :=
  {| ssid := "E1"; name := "Asha"; role := "Engineer";
     performance := risk; experience := mid;
     salary := Some 1000000; revenue := Some 400000;
     status := "FIRED"; suggestion := None |}.

Definition activeEmployee : Employee :=
  {| ssid := "E2"; name := "Ravi"; role := "Engineer";
     performance := strong; experience := senior;
     salary := Some 800000; revenue := Some 2000000;
     status := "ACTIVE"; suggestion := None |}.

(** Thresholds and a market table for the rule engine. *)
Definition thresholds : Core.Thresholds :=
  {| Core.lowMargin := -(1#5); Core.marginalMargin := 1#10;
     Core.highMargin := 1#2; Core.cutRatio := 1#2; Core.raiseRatio := 1#2 |}.

Definition market (_ : string) (x : ExperienceBand) : Core.MarketBand :=
  match x with
  | junior => {| Core.mb_min := 300000; Core.mb_mid := 500000; Core.mb_max := 700000 |}
  | mid => {| Core.mb_min := 500000; Core.mb_mid := 800000; Core.mb_max := 1100000 |}
  | senior => {| Core.mb_min := 800000; Core.mb_mid := 1200000; Core.mb_max := 1600000 |}
  | principal => {| Core.mb_min := 1200000; Core.mb_mid := 1800000; Core.mb_max := 2400000 |}
  end.

Definition record (id : string) (p : PerformanceBand) (x : ExperienceBand)
           (sal rev : Z) (st : Core.LifecycleStatus) : Core.EmployeeRecord :=
  {| Core.e_ssid := id; Core.e_name := id; Core.e_role := "Engineer";
     Core.e_performance := p; Core.e_experience := x;
     Core.e_salary := sal; Core.e_revenue := rev; Core.e_status := st |}.

(** Salary 1,000,000 against revenue 400,000, in the risk band. *)
Definition lossMaker : Core.EmployeeRecord :=
  record "E7" risk mid 1000000 400000 Core.Active.

(** The employee of the PROMOTE scenario. *)
Definition e123 : Core.EmployeeRecord :=
  record "E123" strong senior 800000 2000000 Core.Active.

Definition company : Core.Store :=
  {| Core.employees := <["E123" := e123]> (<["E7" := lossMaker]> ∅);
     Core.ledger := [] |}.

Definition promote10 : Core.ApplyRequest :=
  {| Core.rq_ssid := "E123"; Core.rq_action := "PROMOTE";
     Core.rq_note := None; Core.rq_changePercent := Some (10#1) |}.

(** A request that names no employee of [company] and no known action. *)
Definition hireGhost : Core.ApplyRequest :=
  {| Core.rq_ssid := "E404"; Core.rq_action := "HIRE";
     Core.rq_note := None; Core.rq_changePercent := None |}.

(** The storage layer failing after the record update and before the
    ledger append. *)
Definition failBetween (p : Core.FaultPoint) : bool :=
  match p with
  | Core.BetweenUpdateAndAppend => true
  | _ => false
  end.

Definition candidate (id : string) (sal rev : Z) (a : DecisionAction)
           (sug : option Z) : Core.Candidate :=
  {| Core.c_ssid := id; Core.c_salary := sal; Core.c_revenue := rev;
     Core.c_performance := stable; Core.c_action := a;
     Core.c_confidence := 1#2; Core.c_rationale := "";
     Core.c_suggestedSalary := sug; Core.c_changePercent := None |}.

(** Three candidates worth 60,000,000 together. *)
Definition payroll : list Core.Candidate :=
  [ candidate "A" 30000000 40000000 NO_CHANGE None;
    candidate "B" 20000000 15000000 NO_CHANGE None;
    candidate "C" 9000000 30000000 PROMOTE (Some 10000000) ].

(** A decreased figure of nine tenths of the salary, not below 0. *)
Definition cut : Core.Candidate -> Z := Core.cutTowards (1#10) 0.

End Sample.

(** Sum of a list of amounts. *)
Definition sumZ (l : list Z) : Z := foldr Z.add 0 l.

(* ===================================================================== *)
(** ** The organisation summary on doubles                                *)
(* ===================================================================== *)

(** JavaScript numbers are IEEE 754 doubles.  On integral amounts whose
    absolute values sum to at most 2^53 every sum and difference of the
    reduction is exact, and [App.orgTotals] on [Z] is the computation; the
    module below is the same reduction on doubles, for the other inputs. *)
Module AppF.
Import PrimFloat.

Record Amounts := { salary : float; revenue : float }.

(** [x || 0]: 0 and NaN are falsy. *)
Definition orZero (x : float) : float :=
  if is_nan x || is_zero x then 0%float else x.

Record Totals := {
  atRisk : Z;
  totalSalary : float;
  totalRevenue : float;
  netProfit : float
}.

Definition noTotals : Totals :=
  {| atRisk := 0; totalSalary := 0%float; totalRevenue := 0%float;
     netProfit := 0%float |}.

Definition addEmployee (acc : Totals) (emp : Amounts) : Totals :=
  let salary := orZero (salary emp) in
  let revenue := orZero (revenue emp) in
  let profit := (revenue - salary)%float in
  {| atRisk := if (profit <? 0)%float then atRisk acc + 1 else atRisk acc;
     totalSalary := (totalSalary acc + salary)%float;
     totalRevenue := (totalRevenue acc + revenue)%float;
     netProfit := (netProfit acc + profit)%float |}.

Definition orgTotals (employees : list Amounts) : Totals :=
  fold_left addEmployee employees noTotals.

(** An integral amount as a double. *)
Definition ofZ (z : Z) : float :=
  match z with
  | Z0 => 0%float
  | Zpos p => of_uint63 (Uint63.of_Z (Zpos p))
  | Zneg p => (- of_uint63 (Uint63.of_Z (Zpos p)))%float
  end.

(** One tenth, two tenths: the doubles that [0.1] and [0.2] denote. *)
Definition tenth : float := (1 / 10)%float.
Definition fifth : float := (2 / 10)%float.

End AppF.

(** The integral amounts on which the reduction of [orgSummary] is exact:
    the absolute values of all salaries and revenues sum to at most 2^53. *)
Definition exactRange (employees : list Api.Employee) : Prop :=
  foldr Z.add 0
        (map (fun e => Z.abs (Js.orZero (Api.salary e))
                       + Z.abs (Js.orZero (Api.revenue e))) employees)
  <= 2 ^ 53.

(* ===================================================================== *)
(** ** The API client ([frontend/src/api.ts], functions)                   *)
(* ===================================================================== *)

Module Http.

(** A JSON value as [x || fallback] and [new Error(x)] see it: whether it
    is truthy, and the text [String(x)] that becomes the message. *)
Record JsValue := { truthy : bool; text : string }.

(** A string member: truthy unless empty, and its own text. *)
Definition ofString (s : string) : JsValue :=
  {| truthy := negb (String.eqb s ""); text := s |}.

(** A response whose body is a JSON object: the status, the [error] member
    of the body when it has one, and the body read at the type the wrapper
    declares, which its caller uses for a 2xx response only. *)
Record Response (A : Type) := {
  status : Z;
  errorMember : option JsValue;
  json : A
}.
Arguments status {A} _.
Arguments errorMember {A} _.
Arguments json {A} _.

(** What [fetch] settles to: a rejection (no response at all), by the
    message of its error; a response with a JSON object as body; or a
    response whose body [res.json()] cannot read, by its status and the
    message of the error [res.json()] rejects with. *)
Inductive Fetched (A : Type) :=
| Rejected (message : string)
| Resolved (res : Response A)
| Unreadable (status : Z) (message : string).
Arguments Rejected {A} _.
Arguments Resolved {A} _.
Arguments Unreadable {A} _ _.

(** [res.ok]: the status is in the range 200 to 299. *)
Definition okStatus (status : Z) : bool :=
  (200 <=? status) && (status <=? 299).

Definition ok {A} (res : Response A) : bool := okStatus (status res).

(** [err.error || fallback], as the argument of [new Error]. *)
Definition errorOr (err : option JsValue) (fallback : string) : string :=
  match err with
  | Some v => if truthy v then text v else fallback
  | None => fallback
  end.

(** An [async] wrapper either throws an [Error], given by its message, or
    returns the body. *)
Definition fetchEmployees {A} (f : Fetched A) : string + A :=
  match f with
  | Rejected m => inl m
  | Resolved res =>
      if negb (ok res) then inl "Failed to fetch employees" else inr (json res)
  | Unreadable st m =>
      if negb (okStatus st) then inl "Failed to fetch employees" else inl m
  end.


Definition analyzeEmployees {A} (f : Fetched A) : string + A :=
  match f with
  | Rejected m => inl m
  | Resolved res =>
      if negb (ok res)
      then inl (errorOr (errorMember res) "Failed to analyze employees")
      else inr (json res)
  | Unreadable st m => inl m
  end.

Definition applyAction {A} (f : Fetched A) : string + A :=
  match f with
  | Rejected m => inl m
  | Resolved res =>
      if negb (ok res)
      then inl (errorOr (errorMember res) "Failed to apply action")
      else inr (json res)
  | Unreadable st m => inl m
  end.




End Http.

(* ===================================================================== *)
(** ** The server bootstrap ([src/index.js])                               *)
(* ===================================================================== *)

Module Server.

(** The error middleware: whatever the error, status 500 and the body
    [{ error: "Internal server error" }].  [body] is that JSON object read
    at the type the client declares. *)
Definition errorMiddleware {A} (err : string) (body : A) : Http.Response A :=
  {| Http.status := 500;
     Http.errorMember := Some (Http.ofString "Internal server error");
     Http.json := body |}.

End Server.

(* ===================================================================== *)
(** ** The state of the front end and its handlers ([App.tsx])             *)
(* ===================================================================== *)

Module Ui.
Import Api.

(** The members of the analysis summary the page displays. *)
Record AnalysisSummary := {
  projectedSavingsType : string;
  projectedSavingsFormatted : string
}.

(** The bodies the handlers read. *)
Record EmployeesResponse := {
  r_employees : list Employee;
  r_actions : list ActionRecord
}.

Record AnalyzeResponse := {
  r_summary : AnalysisSummary
}.

(** The [useState] cells of [App]. *)
Record State := {
  employees : list Employee;
  actions : list ActionRecord;
  selectedEmployeeId : option string;
  loading : bool;
  analyzing : bool;
  applyingAction : bool;
  error : option string;
  budget : Z;
  analysisSummary : option AnalysisSummary
}.

Definition initial : State :=
  {| employees := []; actions := []; selectedEmployeeId := None;
     loading := true; analyzing := false; applyingAction := false;
     error := None; budget := 50000000; analysisSummary := None |}.

(** [!selectedEmployeeId]: [null] and the empty string are falsy. *)
Definition unset (id : option string) : bool :=
  match id with
  | None => true
  | Some i => String.eqb i ""
  end.

(** [loadEmployees], from the state of the render that created it to the
    state once the request has settled. *)
Definition loadEmployees (st : State) (f : Http.Fetched EmployeesResponse) : State :=
  match Http.fetchEmployees f with
  | inr data =>
      {| employees := r_employees data;
         actions := r_actions data;
         selectedEmployeeId :=
           match r_employees data with
           | first :: _ =>
               if unset (selectedEmployeeId st) then Some (ssid first)
               else selectedEmployeeId st
           | [] => selectedEmployeeId st
           end;
         loading := false;
         analyzing := analyzing st;
         applyingAction := applyingAction st;
         error := None;
         budget := budget st;
         analysisSummary := analysisSummary st |}
  | inl message =>
      {| employees := employees st;
         actions := actions st;
         selectedEmployeeId := selectedEmployeeId st;
         loading := false;
         analyzing := analyzing st;
         applyingAction := applyingAction st;
         error := Some message;
         budget := budget st;
         analysisSummary := analysisSummary st |}
  end.

Definition setAnalyzing (st : State) (b : bool) : State :=
  {| employees := employees st; actions := actions st;
     selectedEmployeeId := selectedEmployeeId st; loading := loading st;
     analyzing := b; applyingAction := applyingAction st;
     error := error st; budget := budget st;
     analysisSummary := analysisSummary st |}.

Definition setApplyingAction (st : State) (b : bool) : State :=
  {| employees := employees st; actions := actions st;
     selectedEmployeeId := selectedEmployeeId st; loading := loading st;
     analyzing := analyzing st; applyingAction := b;
     error := error st; budget := budget st;
     analysisSummary := analysisSummary st |}.

Definition setError (st : State) (e : option string) : State :=
  {| employees := employees st; actions := actions st;
     selectedEmployeeId := selectedEmployeeId st; loading := loading st;
     analyzing := analyzing st; applyingAction := applyingAction st;
     error := e; budget := budget st;
     analysisSummary := analysisSummary st |}.

Definition setAnalysisSummary (st : State) (s : option AnalysisSummary) : State :=
  {| employees := employees st; actions := actions st;
     selectedEmployeeId := selectedEmployeeId st; loading := loading st;
     analyzing := analyzing st; applyingAction := applyingAction st;
     error := error st; budget := budget st;
     analysisSummary := s |}.

(** [handleAnalyze]: the analysis request, then the reload of the
    employees when the analysis succeeded. *)
Definition handleAnalyze (st : State) (fa : Http.Fetched AnalyzeResponse)
           (fl : Http.Fetched EmployeesResponse) : State :=
  let st0 := setError (setAnalyzing st true) None in
  match Http.analyzeEmployees fa with
  | inr result =>
      setAnalyzing
        (loadEmployees (setAnalysisSummary st0 (Some (r_summary result))) fl)
        false
  | inl message => setAnalyzing (setError st0 (Some message)) false
  end.

(** [handleApplyAction] on the state: nothing happens without a selected
    employee; otherwise the action request, then the reload. *)
Definition applySelected {A} (st : State) (action : App.UIDecisionAction)
           (fa : Http.Fetched A) (fl : Http.Fetched EmployeesResponse) : State :=
  match App.selectedEmployee (employees st) (selectedEmployeeId st) with
  | None => st
  | Some _ =>
      let st0 := setError (setApplyingAction st true) None in
      match Http.applyAction fa with
      | inr _ => setApplyingAction (loadEmployees st0 fl) false
      | inl message => setApplyingAction (setError st0 (Some message)) false
      end
  end.

(** [updateSelected] *)
Definition updateSelected (st : State) (employee : Employee) : State :=
  {| employees := employees st; actions := actions st;
     selectedEmployeeId := Some (ssid employee); loading := loading st;
     analyzing := analyzing st; applyingAction := applyingAction st;
     error := error st; budget := budget st;
     analysisSummary := analysisSummary st |}.

(** The class [selected] of a table row:
    [employee.ssid === selectedEmployeeId]. *)
Definition rowSelected (employee : Employee) (selectedEmployeeId : option string)
  : bool :=
  match selectedEmployeeId with
  | Some id => String.eqb (ssid employee) id
  | None => false
  end.

(** The action history of the detail panel:
    [actions.filter(a => a.ssid === selectedEmployee.ssid).slice(0, 5)]. *)
Definition actionHistory (actions : list ActionRecord) (selected : Employee)
  : list ActionRecord :=
  take 5 (filter (fun a => ar_ssid a = ssid selected) actions).

(** Whether the note "No actions taken yet." is shown. *)
Definition noActionsYet (actions : list ActionRecord) (selected : Employee) : bool :=
  Nat.eqb (length (filter (fun a => ar_ssid a = ssid selected) actions)) 0.

(** What [App] returns: the loading screen, the error screen with its
    retry button, or the page with an optional error banner, the optional
    summary box, the rows of the table, the note for an empty list and the
    employee of the detail panel. *)
Inductive Screen :=
| LoadingScreen
| ErrorScreen (message : string)
| Page (banner : option string) (summaryBox : option AnalysisSummary)
       (rows : list App.Row) (noEmployees : bool) (detail : option Employee).

(** [error && ...]: an empty message is falsy. *)
Definition shown (e : option string) : option string :=
  match e with
  | Some m => if String.eqb m "" then None else Some m
  | None => None
  end.

Definition render (st : State) : Screen :=
  if loading st then LoadingScreen
  else
    match shown (error st), employees st with
    | Some m, [] => ErrorScreen m
    | _, _ =>
        Page (shown (error st)) (analysisSummary st)
             (App.tableRows (employees st))
             (Nat.eqb (length (employees st)) 0)
             (App.selectedEmployee (employees st) (selectedEmployeeId st))
    end.

End Ui.

(* ===================================================================== *)
(** ** Properties of the front end                                        *)
(* ===================================================================== *)

Section CaseFolding.
Import Js.

Lemma allAscii_complete (c : ascii) : In c allAscii.
Proof.
  unfold allAscii. rewrite <- (ascii_nat_embedding c).
  apply in_map, in_seq. pose proof (nat_ascii_bounded c). lia.
Qed.

(** A property of characters checked on every code holds of all of them. *)
Lemma ascii_enum (P : ascii -> bool) :
  forallb P allAscii = true -> forall c, P c = true.
Proof.
  intros H c. rewrite forallb_forall in H. apply H, allAscii_complete.
Qed.

Lemma ascii_enum2 (P : ascii -> ascii -> bool) :
  forallb (fun a => forallb (P a) allAscii) allAscii = true ->
  forall a b, P a b = true.
Proof.
  intros H a b.
  apply (ascii_enum (P a)).
  apply (ascii_enum (fun a => forallb (P a) allAscii) H a).
Qed.

Lemma upper_lower_ascii (c : ascii) : upper_ascii (lower_ascii c) = upper_ascii c.
Proof.
  apply Ascii.eqb_eq.
  apply (ascii_enum (fun c => Ascii.eqb (upper_ascii (lower_ascii c)) (upper_ascii c))).
  vm_compute. reflexivity.
Qed.

Lemma upper_upper_ascii (c : ascii) : upper_ascii (upper_ascii c) = upper_ascii c.
Proof.
  apply Ascii.eqb_eq.
  apply (ascii_enum (fun c => Ascii.eqb (upper_ascii (upper_ascii c)) (upper_ascii c))).
  vm_compute. reflexivity.
Qed.

(** Two characters have the same upper case exactly when they are equal
    or one is the upper case of the other. *)
Lemma same_upper_ascii (a b : ascii) :
  Ascii.eqb (upper_ascii a) (upper_ascii b)
  = (Ascii.eqb a b || Ascii.eqb (upper_ascii a) b || Ascii.eqb a (upper_ascii b))%bool.
Proof.
  pose (P := fun a b =>
    Bool.eqb (Ascii.eqb (upper_ascii a) (upper_ascii b))
             (Ascii.eqb a b || Ascii.eqb (upper_ascii a) b
              || Ascii.eqb a (upper_ascii b))%bool).
  assert (H : P a b = true).
  { apply ascii_enum2. vm_compute. reflexivity. }
  unfold P in H. apply Bool.eqb_prop in H. exact H.
Qed.

Lemma sameUpToCase_upper (s t : string) :
  sameUpToCase s t = true <-> toUpperCase s = toUpperCase t.
Proof.
  revert t. induction s as [|a s IH]; intros [|b t]; simpl; try easy.
  rewrite <- same_upper_ascii, andb_true_iff, IH, Ascii.eqb_eq.
  split.
  - intros [-> ->]. reflexivity.
  - intros H. injection H as H1 H2. auto.
Qed.

Lemma toUpperCase_lower (s : string) : toUpperCase (toLowerCase s) = toUpperCase s.
Proof.
  induction s as [|a s IH]; simpl; [reflexivity|].
  rewrite upper_lower_ascii, IH. reflexivity.
Qed.

Lemma toUpperCase_idem (s : string) : toUpperCase (toUpperCase s) = toUpperCase s.
Proof.
  induction s as [|a s IH]; simpl; [reflexivity|].
  rewrite upper_upper_ascii, IH. reflexivity.
Qed.

Lemma toUpperCase_empty (s : string) : toUpperCase s = "" <-> s = "".
Proof. destruct s; simpl; split; congruence. Qed.

End CaseFolding.

Section ActionMapping.
Import Api.

(** The switch of [mapBackendAction] only looks at the upper-cased text. *)
Lemma mapBackendAction_upper (s : string) :
  App.mapBackendAction (Some s) =
  let u := Js.toUpperCase s in
  if String.eqb u "FIRE" then App.fire
  else if String.eqb u "PROMOTE" then App.increase
  else if String.eqb u "DECREASE_SALARY" then App.decrease
  else App.keep.
Proof.
  unfold App.mapBackendAction.
  destruct (String.eqb_spec s "") as [->|Hne]; reflexivity.
Qed.

Lemma mapBackendAction_same_upper (s t : string) :
  Js.toUpperCase s = Js.toUpperCase t ->
  App.mapBackendAction (Some s) = App.mapBackendAction (Some t).
Proof.
  intros H. rewrite !mapBackendAction_upper. cbv zeta. rewrite H. reflexivity.
Qed.

(** C9. The two action mappings of the front end form a round trip on the
    four canonical actions; [mapBackendAction] is a total function that does
    not depend on the case of the letters of its argument, and it sends an
    absent action, and every string that is not (up to case) FIRE, PROMOTE
    or DECREASE_SALARY, to [keep], which stands for NO_CHANGE.  Strings are
    ASCII, the domain on which [Js.toUpperCase] is the JavaScript function. *)
Theorem mapBackendAction_roundtrip :
  (forall a : DecisionAction,
      Js.isAscii (actionName a) = true
      /\ App.mapUIActionToBackend (App.mapBackendAction (Some (actionName a))) = a)
  /\ (forall s t : string,
         Js.isAscii s = true -> Js.isAscii t = true ->
         Js.sameUpToCase s t = true ->
         App.mapBackendAction (Some s) = App.mapBackendAction (Some t))
  /\ (forall s : string,
         Js.isAscii s = true ->
         App.mapBackendAction (Some (Js.toLowerCase s)) = App.mapBackendAction (Some s)
         /\ App.mapBackendAction (Some (Js.toUpperCase s)) = App.mapBackendAction (Some s))
  /\ App.mapBackendAction None = App.keep
  /\ (forall s : string,
         Js.isAscii s = true ->
         (forall a, a <> NO_CHANGE -> Js.sameUpToCase s (actionName a) = false) ->
         App.mapBackendAction (Some s) = App.keep)
  /\ App.mapUIActionToBackend App.keep = NO_CHANGE.
Proof.
  split; [|split; [|split; [|split; [|split]]]].
  - intros []; split; reflexivity.
  - intros s t _ _ H. apply mapBackendAction_same_upper.
    apply sameUpToCase_upper, H.
  - intros s _. split; apply mapBackendAction_same_upper.
    + apply toUpperCase_lower.
    + apply toUpperCase_idem.
  - reflexivity.
  - intros s _ H. rewrite mapBackendAction_upper. cbv zeta.
    assert (Hno : forall a, a <> NO_CHANGE ->
                            String.eqb (Js.toUpperCase s) (actionName a) = false).
    { intros a Ha.
      destruct (String.eqb_spec (Js.toUpperCase s) (actionName a)) as [E|];
        [|reflexivity].
      specialize (H a Ha).
      assert (Js.sameUpToCase s (actionName a) = true) as Hs.
      { apply sameUpToCase_upper. rewrite E. destruct a; reflexivity. }
      congruence. }
    pose proof (Hno FIRE ltac:(discriminate)) as H1.
    pose proof (Hno PROMOTE ltac:(discriminate)) as H2.
    pose proof (Hno DECREASE_SALARY ltac:(discriminate)) as H3.
    simpl actionName in H1, H2, H3. rewrite H1, H2, H3. reflexivity.
  - reflexivity.
Qed.

Lemma mapBackendAction_roundtrip_witness :
  App.mapBackendAction (Some "pRoMoTe") = App.mapBackendAction (Some "PROMOTE")
  /\ App.mapBackendAction (Some "HIRE") = App.keep.
Proof.
  split.
  - apply (proj1 (proj2 mapBackendAction_roundtrip) "pRoMoTe" "PROMOTE");
      vm_compute; reflexivity.
  - apply (proj1 (proj2 (proj2 (proj2 (proj2 mapBackendAction_roundtrip)))) "HIRE").
    + vm_compute. reflexivity.
    + intros a Ha. destruct a; vm_compute; congruence.
Defined.

End ActionMapping.

Section OrgSummary.
Import Api.

(** The reduction of [orgSummary], started from any accumulator. *)
Lemma fold_addEmployee (l : list Employee) (acc : App.Totals) :
  let t := fold_left App.addEmployee l acc in
  App.atRisk t
  = App.atRisk acc
    + Z.of_nat (length (List.filter (fun e => App.profitOf e <? 0) l))
  /\ App.totalSalary t
     = App.totalSalary acc + sumZ (map (fun e => Js.orZero (salary e)) l)
  /\ App.totalRevenue t
     = App.totalRevenue acc + sumZ (map (fun e => Js.orZero (revenue e)) l)
  /\ App.netProfit t = App.netProfit acc + sumZ (map App.profitOf l).
Proof.
  revert acc. induction l as [|e l IH]; intros acc; cbn zeta.
  - simpl. unfold sumZ. simpl. lia.
  - simpl fold_left. specialize (IH (App.addEmployee acc e)). cbn zeta in IH.
    destruct IH as (Ha & Hs & Hr & Hp).
    rewrite Ha, Hs, Hr, Hp. clear Ha Hs Hr Hp.
    unfold App.addEmployee, sumZ. cbn [App.atRisk App.totalSalary App.totalRevenue
      App.netProfit map foldr List.filter].
    fold (App.profitOf e).
    destruct (App.profitOf e <? 0); cbn [length]; repeat split; lia.
Qed.

(** C10. On every employee list of integral amounts in the exact range
    (absolute values summing to at most 2^53) the organisation summary of
    the front end treats a missing salary or revenue as 0, [atRisk] is the
    number of employees whose revenue minus salary is negative, the three
    totals are the sums of the per-employee values, and the net profit is
    the total revenue minus the total salary. *)
Theorem orgSummary_totals (employees : list Employee) :
  exactRange employees ->
  let t := App.totals (App.orgSummary employees) in
  let amount (x : Js.field) := match x with Some v => v | None => 0 end in
  App.atRisk t
  = Z.of_nat (length (List.filter
                        (fun e => amount (revenue e) - amount (salary e) <? 0)
                        employees))
  /\ App.totalSalary t = sumZ (map (fun e => amount (salary e)) employees)
  /\ App.totalRevenue t = sumZ (map (fun e => amount (revenue e)) employees)
  /\ App.netProfit t
     = sumZ (map (fun e => amount (revenue e) - amount (salary e)) employees)
  /\ App.netProfit t = App.totalRevenue t - App.totalSalary t.
Proof.
  intros _.
  cbn zeta. unfold App.orgSummary, App.orgTotals. cbn [App.totals].
  destruct (fold_addEmployee employees App.noTotals) as (Ha & Hs & Hr & Hp).
  cbn zeta in Ha, Hs, Hr, Hp. cbn [App.noTotals App.atRisk App.totalSalary
    App.totalRevenue App.netProfit] in Ha, Hs, Hr, Hp.
  rewrite Ha, Hs, Hr, Hp.
  repeat split; try reflexivity.
  clear. induction employees as [|e l IH]; [reflexivity|].
  unfold sumZ in *. cbn [map foldr]. unfold App.profitOf at 1. unfold Js.orZero in *.
  lia.
Qed.

Lemma orgSummary_totals_witness :
  App.netProfit (App.totals (App.orgSummary [Sample.firedEmployee; Sample.activeEmployee]))
  = App.totalRevenue (App.totals (App.orgSummary [Sample.firedEmployee; Sample.activeEmployee]))
    - App.totalSalary (App.totals (App.orgSummary [Sample.firedEmployee; Sample.activeEmployee])).
Proof.
  apply (proj2 (proj2 (proj2 (proj2
           (orgSummary_totals [Sample.firedEmployee; Sample.activeEmployee]
              ltac:(vm_compute; discriminate)))))).
Defined.

(** On doubles the net profit is not always the total revenue minus the
    total salary: for the amounts (salary 0.1, revenue 0.1) and (salary 0.1,
    revenue 0.2) the reduction gives 0.1 against 0.10000000000000003. *)
Lemma netProfit_differs_on_doubles :
  ~ (forall employees : list AppF.Amounts,
        let t := AppF.orgTotals employees in
        PrimFloat.eqb (AppF.netProfit t)
                      (PrimFloat.sub (AppF.totalRevenue t) (AppF.totalSalary t))
        = true).
Proof.
  intros H.
  specialize (H [ {| AppF.salary := AppF.tenth; AppF.revenue := AppF.tenth |};
                  {| AppF.salary := AppF.tenth; AppF.revenue := AppF.fifth |} ]).
  vm_compute in H. discriminate.
Qed.

(** On the integral amounts of the sample the two reductions agree. *)
Example doubles_agree_on_sample :
  let t := App.orgTotals [Sample.firedEmployee; Sample.activeEmployee] in
  let f := AppF.orgTotals
             [ {| AppF.salary := AppF.ofZ 1000000; AppF.revenue := AppF.ofZ 400000 |};
               {| AppF.salary := AppF.ofZ 800000; AppF.revenue := AppF.ofZ 2000000 |} ] in
  AppF.atRisk f = App.atRisk t
  /\ PrimFloat.eqb (AppF.totalSalary f) (AppF.ofZ (App.totalSalary t)) = true
  /\ PrimFloat.eqb (AppF.totalRevenue f) (AppF.ofZ (App.totalRevenue t)) = true
  /\ PrimFloat.eqb (AppF.netProfit f) (AppF.ofZ (App.netProfit t)) = true.
Proof. vm_compute. repeat split. Qed.

(** The at-risk count tests exactly the sign of revenue minus salary. *)
Lemma addEmployee_atRisk (acc : App.Totals) (e : Employee) :
  App.atRisk (App.addEmployee acc e)
  = if decide (Js.orZero (revenue e) - Js.orZero (salary e) < 0)
    then App.atRisk acc + 1 else App.atRisk acc.
Proof.
  unfold App.addEmployee. cbn [App.atRisk].
  destruct (Z.ltb_spec (Js.orZero (revenue e) - Js.orZero (salary e)) 0);
    case_decide; lia.
Qed.

End OrgSummary.

Section Margin.
Import Api.

(** The evaluator of the core guards the division in the same way. *)
Lemma marginQ_zero_revenue (profit : Z) : Core.marginQ profit 0 = 0%Q.
Proof. reflexivity. Qed.

Lemma div_finite (a b : Z) :
  b <> 0 -> Js.div a b = Js.Fin (inject_Z a / inject_Z b).
Proof.
  intros Hb. unfold Js.div. destruct (Z.eqb_spec b 0); [contradiction|reflexivity].
Qed.

Lemma truthy_orZero (x : Js.field) : Js.truthy x = negb (Js.orZero x =? 0).
Proof. destruct x; reflexivity. Qed.

Lemma marginOf_cases (emp : Employee) :
  App.marginOf emp =
  if Js.orZero (revenue emp) =? 0 then Js.Fin 0
  else Js.Fin (inject_Z (App.profitOf emp) / inject_Z (Js.orZero (revenue emp))).
Proof.
  unfold App.marginOf. rewrite truthy_orZero.
  destruct (Z.eqb_spec (Js.orZero (revenue emp)) 0) as [E|N]; cbn [negb].
  - reflexivity.
  - apply div_finite, N.
Qed.

(** With both amounts present, the branch taken before any analysis
    computes the same margin as the guarded one. *)
Lemma marginUnanalysed_present (emp : Employee) (s : Z) :
  salary emp = Some s -> App.marginUnanalysed emp = App.marginOf emp.
Proof.
  intros Hs. unfold App.marginUnanalysed, App.marginOf, App.profitOf.
  rewrite Hs. destruct (revenue emp) as [r|]; reflexivity.
Qed.

(** Without a salary the unguarded difference of that branch is NaN. *)
Remark marginUnanalysed_missing_salary :
  App.marginUnanalysed
    {| ssid := "E9"; name := "Mira"; role := "Analyst";
       performance := stable; experience := junior;
       salary := None; revenue := Some 100;
       status := "ACTIVE"; suggestion := None |}
  = Js.NaN.
Proof. reflexivity. Qed.

(** C3. For an employee record without a salary and not yet analysed
    (revenue 100), the decision panel computes the profit with the [|| 0]
    guards (100) but the margin from the unguarded difference
    [revenue - salary]: the margin is NaN, where the guarded computation of
    the sibling branch gives 1. *)
Theorem selectedDecision_margin_nan :
  let emp := {| ssid := "E9"; name := "Mira"; role := "Analyst";
                performance := stable; experience := junior;
                salary := None; revenue := Some 100;
                status := "ACTIVE"; suggestion := None |} in
  App.d_profitability (App.selectedDecision (Some emp)) = 100
  /\ App.d_margin (App.selectedDecision (Some emp)) = Js.NaN
  /\ Js.isFinite (App.d_margin (App.selectedDecision (Some emp))) = false
  /\ App.marginOf emp = Js.Fin (inject_Z 100 / inject_Z 100).
Proof. cbn zeta. repeat split. Qed.

(** For every employee record the front end derives
    [profit = revenue - salary] (an absent amount counting as 0) and
    [margin = profit / revenue], the margin being 0 whenever the revenue is
    0; the margin is always a finite number: in the decision panel (after
    an analysis, and before it for a record that has its salary), in each
    row of the employee table and for the organisation as a whole. *)
Theorem margin_never_fails (emp : Employee) :
  let r := Js.orZero (revenue emp) in
  let s := Js.orZero (salary emp) in
  App.profitOf emp = r - s
  /\ (r = 0 -> App.marginOf emp = Js.Fin 0)
  /\ (r <> 0 -> App.marginOf emp = Js.Fin (inject_Z (r - s) / inject_Z r))
  /\ Js.isFinite (App.marginOf emp) = true
  /\ (forall sg, suggestion emp = Some sg ->
        App.d_profitability (App.selectedDecision (Some emp)) = r - s
        /\ App.d_margin (App.selectedDecision (Some emp)) = App.marginOf emp)
  /\ (forall v, salary emp = Some v -> suggestion emp = None ->
        App.d_profitability (App.selectedDecision (Some emp)) = r - s
        /\ App.d_margin (App.selectedDecision (Some emp)) = App.marginOf emp)
  /\ (forall employees row, In row (App.tableRows employees) ->
        Js.isFinite (App.row_margin row) = true)
  /\ (forall employees,
        let o := App.orgSummary employees in
        let t := App.totals o in
        Js.isFinite (App.margin o) = true
        /\ (App.totalRevenue t = 0 -> App.margin o = Js.Fin 0)
        /\ (App.totalRevenue t <> 0 ->
            App.margin o
            = Js.Fin (inject_Z (App.netProfit t) / inject_Z (App.totalRevenue t)))).
Proof.
  cbn zeta.
  assert (Hfin : forall e, Js.isFinite (App.marginOf e) = true).
  { intros e. rewrite marginOf_cases. destruct (_ =? 0); reflexivity. }
  split; [reflexivity|].
  split.
  { intros E. rewrite marginOf_cases, E. reflexivity. }
  split.
  { intros N. rewrite marginOf_cases.
    destruct (Z.eqb_spec (Js.orZero (revenue emp)) 0); [contradiction|reflexivity]. }
  split; [apply Hfin|].
  split.
  { intros sg Hsg. unfold App.selectedDecision. rewrite Hsg. split; reflexivity. }
  split.
  { intros v Hv Hsg. unfold App.selectedDecision. rewrite Hsg.
    cbn [App.d_profitability App.d_margin].
    split; [reflexivity|]. apply (marginUnanalysed_present emp v Hv). }
  split.
  { intros employees row Hin. unfold App.tableRows in Hin.
    apply in_map_iff in Hin. destruct Hin as (e & <- & _). apply Hfin. }
  intros employees. unfold App.orgSummary. cbn [App.totals App.margin].
  destruct (Z.eqb_spec (App.totalRevenue (App.orgTotals employees)) 0) as [E|N].
  - repeat split; try reflexivity. intros; contradiction.
  - rewrite (div_finite _ _ N). repeat split; try reflexivity. intros; contradiction.
Qed.

Lemma margin_never_fails_witness :
  App.marginOf Sample.firedEmployee = Js.Fin (inject_Z (400000 - 1000000) / inject_Z 400000).
Proof.
  apply (proj1 (proj2 (proj2 (margin_never_fails Sample.firedEmployee)))).
  vm_compute. discriminate.
Defined.

End Margin.

Section FiredEmployees.
Import Api.

(** The employee table leaves out every employee whose status is FIRED. *)
Lemma tableRows_skip_fired (employees : list Employee) (row : App.Row) :
  In row (App.tableRows employees) ->
  exists e, In e employees /\ status e <> "FIRED" /\ App.row_ssid row = ssid e.
Proof.
  unfold App.tableRows. intros Hin. apply in_map_iff in Hin.
  destruct Hin as (e & <- & He).
  apply list_elem_of_In, list_elem_of_filter in He. destruct He as [Hnf He].
  exists e. split; [apply list_elem_of_In, He|]. split; [|reflexivity].
  unfold App.notFired in Hnf. intros E. rewrite E in Hnf. discriminate.
Qed.

(** The totals of [orgSummary] do not look at the status of an employee. *)
Lemma addEmployee_ignores_status (acc : App.Totals) (e e' : Employee) :
  salary e = salary e' -> revenue e = revenue e' ->
  App.addEmployee acc e = App.addEmployee acc e'.
Proof. intros Hs Hr. unfold App.addEmployee. rewrite Hs, Hr. reflexivity. Qed.

(** C2. On the list holding one FIRED employee (salary 1,000,000, revenue
    400,000) the employee table shows no row, while [orgSummary] counts the
    employee in all four totals: they differ from the totals over the
    employees that are not fired. *)
Theorem orgSummary_counts_fired :
  App.tableRows [Sample.firedEmployee] = []
  /\ App.totals (App.orgSummary [Sample.firedEmployee])
     = {| App.atRisk := 1; App.totalSalary := 1000000;
          App.totalRevenue := 400000; App.netProfit := -600000 |}
  /\ App.orgTotals (filter (fun e => App.notFired e = true) [Sample.firedEmployee])
     = App.noTotals
  /\ App.orgTotals [Sample.firedEmployee]
     <> App.orgTotals (filter (fun e => App.notFired e = true) [Sample.firedEmployee]).
Proof.
  repeat split; try reflexivity. vm_compute. discriminate.
Qed.

End FiredEmployees.

(* ===================================================================== *)
(** ** Properties of the decision core                                    *)
(* ===================================================================== *)

Section RuleEngine.
Import Api Core.

Lemma Fires_functional (s : Signals) (rs : list Rule) (fb r1 r2 : Rule) :
  Fires s rs fb r1 -> Fires s rs fb r2 -> r1 = r2.
Proof.
  intros H1. revert r2.
  induction H1 as [r rs fb Hm | r rs fb r' Hm H1 IH | fb]; intros r2 H2;
    inversion H2; subst; try congruence.
  apply IH. assumption.
Qed.

Lemma selectRule_Fires (s : Signals) (rs : list Rule) (fb : Rule) :
  Fires s rs fb (selectRule s rs fb).
Proof.
  induction rs as [|r rs IH]; simpl.
  - constructor.
  - destruct (r_matches r s) eqn:Hm.
    + constructor. exact Hm.
    + constructor; assumption.
Qed.

Lemma suggest_Suggests (cfg : RuleConfig) (s : Signals) (current : Z) :
  Suggests cfg s current (suggest cfg s current).
Proof.
  exists (selectRule s (rules cfg) (fallback cfg)).
  split; [apply selectRule_Fires|reflexivity].
Qed.

(** Two runs on the same signals agree on everything but what depends on
    the current salary. *)
Lemma Suggests_agree (cfg : RuleConfig) (s : Signals)
      (current1 current2 : Z) (o1 o2 : Outcome) :
  Suggests cfg s current1 o1 ->
  Suggests cfg s current2 o2 ->
  o_action o1 = o_action o2
  /\ o_confidence o1 = o_confidence o2
  /\ o_rationale o1 = o_rationale o2
  /\ (current1 = current2 -> o1 = o2).
Proof.
  intros (r1 & F1 & ->) (r2 & F2 & ->).
  rewrite (Fires_functional _ _ _ _ _ F1 F2).
  repeat split. intros ->. reflexivity.
Qed.





(** Every run ends with an outcome, the one [suggest] computes. *)
Lemma suggest_unique (cfg : RuleConfig) (s : Signals) (current : Z) (o : Outcome) :
  Suggests cfg s current o <-> o = suggest cfg s current.
Proof.
  split.
  - intros H. apply (Suggests_agree cfg s current current o _ H
                       (suggest_Suggests cfg s current)). reflexivity.
  - intros ->. apply suggest_Suggests.
Qed.

(** Two employees with the same signals get the same candidate action,
    confidence and rationale. *)
Lemma candidateOf_signals (cfg : RuleConfig)
      (market : string -> ExperienceBand -> MarketBand) (e1 e2 : EmployeeRecord) :
  evaluate market e1 = evaluate market e2 ->
  c_action (candidateOf cfg market e1) = c_action (candidateOf cfg market e2)
  /\ c_confidence (candidateOf cfg market e1) = c_confidence (candidateOf cfg market e2)
  /\ c_rationale (candidateOf cfg market e1) = c_rationale (candidateOf cfg market e2).
Proof.
  intros E. unfold candidateOf. cbn [c_action c_confidence c_rationale].
  rewrite E.
  destruct (Suggests_agree cfg (evaluate market e2) (e_salary e1) (e_salary e2)
              _ _ (suggest_Suggests _ _ _) (suggest_Suggests _ _ _)) as (Ha & Hc & Hr & _).
  auto.
Qed.

(** The loss-making employee of the sample: margin -3/2, hence FIRE with
    full confidence and no suggested salary. *)
Example lossMaker_fired :
  let o := suggest (policy Sample.thresholds)
                   (evaluate Sample.market Sample.lossMaker) 1000000 in
  Qeq_bool (sg_margin (evaluate Sample.market Sample.lossMaker)) (-3#2) = true
  /\ o_action o = FIRE
  /\ Qltb (1#2) (o_confidence o) = true
  /\ o_suggestedSalary o = None
  /\ o_rationale o = "FIRE: profit -600000, margin -3/2, market 500000-800000-1100000".
Proof. vm_compute. repeat split. Qed.

End RuleEngine.

Section BudgetReconciler.
Import Api Core.

Variable cut : Candidate -> Z.

Lemma insertBy_perm {A} (le : A -> A -> bool) (x : A) (l : list A) :
  insertBy le x l ≡ₚ x :: l.
Proof.
  induction l as [|y l IH]; simpl; [reflexivity|].
  destruct (le x y); [reflexivity|].
  rewrite IH. apply Permutation_swap.
Qed.

Lemma sortBy_perm {A} (le : A -> A -> bool) (l : list A) : sortBy le l ≡ₚ l.
Proof.
  induction l as [|x l IH]; simpl; [reflexivity|].
  rewrite insertBy_perm, IH. reflexivity.
Qed.

Lemma insertBy_sorted {A} (le : A -> A -> bool) (x : A) (l : list A) :
  (forall a b, le a b = true \/ le b a = true) ->
  Sorted (fun a b => le a b = true) l ->
  Sorted (fun a b => le a b = true) (insertBy le x l).
Proof.
  intros Htotal. induction 1 as [|y l Hl IH Hhd]; simpl.
  - repeat constructor.
  - destruct (le x y) eqn:Hxy.
    + repeat constructor; assumption.
    + constructor; [exact IH|].
      destruct l as [|z l]; simpl.
      * constructor. destruct (Htotal x y); congruence.
      * destruct (le x z).
        -- constructor. destruct (Htotal x y); congruence.
        -- constructor. inversion Hhd; assumption.
Qed.

Lemma sortBy_sorted {A} (le : A -> A -> bool) (l : list A) :
  (forall a b, le a b = true \/ le b a = true) ->
  Sorted (fun a b => le a b = true) (sortBy le l).
Proof.
  intros Htotal. induction l as [|x l IH]; simpl.
  - constructor.
  - apply insertBy_sorted; assumption.
Qed.

Lemma priorityLe_total (a b : Candidate) :
  priorityLe a b = true \/ priorityLe b a = true.
Proof.
  unfold priorityLe.
  destruct (Z.ltb_spec (profitOfCandidate a) (profitOfCandidate b)); [auto|].
  destruct (Z.ltb_spec (profitOfCandidate b) (profitOfCandidate a)); [auto|].
  destruct (Z.ltb_spec (perfRank (c_performance a)) (perfRank (c_performance b)));
    [auto|].
  destruct (Z.ltb_spec (perfRank (c_performance b)) (perfRank (c_performance a)));
    [auto|].
  apply String.leb_total.
Qed.

(** The escalation set is visited from the least profitable employee on. *)
Lemma priorityOrder_sorted (cs : list Candidate) :
  exists ranked : list (nat * Candidate),
    priorityOrder cs = map fst ranked
    /\ Sorted (fun a b => priorityLe (snd a) (snd b) = true) ranked
    /\ forall i c, (i, c) ∈ ranked <-> cs !! i = Some c /\ escalatable c = true.
Proof.
  eexists. split; [reflexivity|]. split.
  - apply (sortBy_sorted (fun a b => priorityLe (snd a) (snd b))).
    intros a b. apply priorityLe_total.
  - intros i c. rewrite sortBy_perm, list_elem_of_filter. cbn [snd].
    rewrite elem_of_lookup_imap. split.
    + intros (He & j & c' & [= -> ->] & Hc). auto.
    + intros (Hc & He). split; [exact He|]. exists i, c. auto.
Qed.

(** The priority order lists exactly the positions of the escalatable
    candidates. *)
Lemma priorityOrder_spec (cs : list Candidate) (i : nat) :
  i ∈ priorityOrder cs <-> exists c, cs !! i = Some c /\ escalatable c = true.
Proof.
  unfold priorityOrder. rewrite list_elem_of_fmap. split.
  - intros ([j c] & -> & Hin). rewrite sortBy_perm in Hin.
    apply list_elem_of_filter in Hin. destruct Hin as [He Hin].
    apply elem_of_lookup_imap in Hin. destruct Hin as (k & c' & E & Hk).
    inversion E; subst. exists c'. split; assumption.
  - intros (c & Hc & He). exists (i, c). split; [reflexivity|].
    rewrite sortBy_perm. apply list_elem_of_filter. split; [exact He|].
    apply elem_of_lookup_imap. exists i, c. split; [reflexivity|exact Hc].
Qed.

Lemma escalate_fire (c : Candidate) : c_action c = FIRE -> escalate cut c = c.
Proof. intros H. unfold escalate. rewrite H. reflexivity. Qed.

(** Two escalations reach FIRE from any action. *)
Lemma escalate_twice_fire (c : Candidate) :
  c_action (escalate cut (escalate cut c)) = FIRE.
Proof. destruct c as [? ? ? ? [] ? ? ? ?]; reflexivity. Qed.

Lemma escalate_ssid (c : Candidate) : c_ssid (escalate cut c) = c_ssid c.
Proof. unfold escalate. destruct (c_action c); reflexivity. Qed.

Lemma escalate_severity (c : Candidate) :
  (severity (c_action c) <= severity (c_action (escalate cut c)))%nat.
Proof. destruct c as [? ? ? ? [] ? ? ? ?]; simpl; lia. Qed.

Lemma escalateAt_fits (budget : Z) (i : nat) (cs : list Candidate) :
  aggregate cs <= budget -> escalateAt cut budget i cs = cs.
Proof.
  intros H. unfold escalateAt.
  destruct (Z.leb_spec (aggregate cs) budget); [reflexivity|lia].
Qed.

Lemma walk_fits (budget : Z) (order : list nat) (cs : list Candidate) :
  aggregate cs <= budget -> walk cut budget order cs = cs.
Proof.
  intros H. unfold walk. induction order as [|i order IH]; simpl; [reflexivity|].
  rewrite !(escalateAt_fits budget i cs H). exact IH.
Qed.

Lemma escalateAt_keeps_fire (budget : Z) (i j : nat) (cs : list Candidate) (c : Candidate) :
  cs !! j = Some c -> c_action c = FIRE -> escalateAt cut budget i cs !! j = Some c.
Proof.
  intros Hc Hf. unfold escalateAt. destruct (_ <=? _); [exact Hc|].
  rewrite list_lookup_alter. case_decide as E; [|exact Hc].
  subst i. rewrite Hc. simpl. rewrite escalate_fire by assumption. reflexivity.
Qed.

Lemma walk_keeps_fire (budget : Z) (order : list nat) (cs : list Candidate)
      (j : nat) (c : Candidate) :
  cs !! j = Some c -> c_action c = FIRE -> walk cut budget order cs !! j = Some c.
Proof.
  unfold walk. revert cs. induction order as [|i order IH]; intros cs Hc Hf; simpl.
  - exact Hc.
  - apply IH; [|exact Hf]. do 2 (apply escalateAt_keeps_fire; [|exact Hf]). exact Hc.
Qed.

Lemma escalateAt_length (budget : Z) (i : nat) (cs : list Candidate) :
  length (escalateAt cut budget i cs) = length cs.
Proof. unfold escalateAt. destruct (_ <=? _); [reflexivity|apply length_alter]. Qed.

Lemma walk_length (budget : Z) (order : list nat) (cs : list Candidate) :
  length (walk cut budget order cs) = length cs.
Proof.
  unfold walk. revert cs. induction order as [|i order IH]; intros cs; simpl.
  - reflexivity.
  - rewrite IH, !escalateAt_length. reflexivity.
Qed.

(** The walk ends within budget, or with every visited position at FIRE. *)
Lemma walk_fits_or_fired (budget : Z) (order : list nat) (cs : list Candidate) :
  aggregate (walk cut budget order cs) <= budget
  \/ forall i c, i ∈ order -> walk cut budget order cs !! i = Some c -> c_action c = FIRE.
Proof.
  revert cs. induction order as [|i order IH]; intros cs.
  - right. intros i c Hin. inversion Hin.
  - change (walk cut budget (i :: order) cs)
      with (walk cut budget order (escalateAt cut budget i (escalateAt cut budget i cs))).
    destruct (Z.leb_spec (aggregate cs) budget) as [Hfit|Hover].
    { left. rewrite !(escalateAt_fits budget i cs Hfit). rewrite walk_fits; assumption. }
    set (cs1 := escalateAt cut budget i cs).
    destruct (Z.leb_spec (aggregate cs1) budget) as [Hfit1|Hover1].
    { left. rewrite (escalateAt_fits budget i cs1 Hfit1). rewrite walk_fits; assumption. }
    set (cs2 := escalateAt cut budget i cs1).
    destruct (IH cs2) as [Hfit2|Hall]; [left; exact Hfit2|].
    right. intros j c Hin Hj.
    apply elem_of_cons in Hin. destruct Hin as [->|Hin]; [|eapply Hall; eassumption].
    assert (Hcs2 : cs2 = alter (escalate cut) i (alter (escalate cut) i cs)).
    { unfold cs2, escalateAt at 1.
      destruct (Z.leb_spec (aggregate cs1) budget); [lia|].
      unfold cs1, escalateAt.
      destruct (Z.leb_spec (aggregate cs) budget); [lia|reflexivity]. }
    destruct (cs !! i) as [c0|] eqn:Hc0.
    + assert (H2 : cs2 !! i = Some (escalate cut (escalate cut c0))).
      { rewrite Hcs2, !list_lookup_alter. case_decide; [|congruence].
        rewrite Hc0. reflexivity. }
      rewrite (walk_keeps_fire budget order cs2 i _ H2 (escalate_twice_fire c0)) in Hj.
      inversion Hj; subst. apply escalate_twice_fire.
    + exfalso. apply lookup_ge_None in Hc0. apply lookup_lt_Some in Hj.
      rewrite walk_length in Hj. unfold cs2, cs1 in Hj.
      rewrite !escalateAt_length in Hj. lia.
Qed.

(** Every final suggestion is its candidate after some escalations. *)
Lemma escalateAt_escalated (budget : Z) (i : nat) (cs acc : list Candidate) :
  Forall2 (EscalatedTo cut) cs acc ->
  Forall2 (EscalatedTo cut) cs (escalateAt cut budget i acc).
Proof.
  intros H. unfold escalateAt. destruct (_ <=? _); [exact H|].
  apply Forall2_alter_r; [exact H|]. intros x y _ _ Hxy. constructor. exact Hxy.
Qed.

Lemma walk_escalated (budget : Z) (order : list nat) (cs acc : list Candidate) :
  Forall2 (EscalatedTo cut) cs acc ->
  Forall2 (EscalatedTo cut) cs (walk cut budget order acc).
Proof.
  unfold walk. revert acc. induction order as [|i order IH]; intros acc H; simpl.
  - exact H.
  - apply IH. do 2 apply escalateAt_escalated. exact H.
Qed.

Lemma reconcile_escalated (budget : Z) (cs : list Candidate) :
  Forall2 (EscalatedTo cut) cs (reconcile cut budget cs).
Proof.
  assert (Hrefl : Forall2 (EscalatedTo cut) cs cs).
  { apply Forall_Forall2_diag, Forall_forall. intros c _. constructor. }
  unfold reconcile. destruct (_ <=? _); [exact Hrefl|].
  apply walk_escalated, Hrefl.
Qed.

(** Escalation keeps the identifier, never lowers the severity and never
    touches a FIRE candidate. *)
Lemma EscalatedTo_severity (c c' : Candidate) :
  EscalatedTo cut c c' ->
  c_ssid c' = c_ssid c
  /\ (severity (c_action c) <= severity (c_action c'))%nat
  /\ (c_action c = FIRE -> c' = c).
Proof.
  induction 1 as [|c' H (Hid & Hsev & Hfire)].
  - repeat split; auto.
  - pose proof (escalate_severity c'). rewrite escalate_ssid.
    repeat split; [assumption|lia|].
    intros Hf. rewrite (Hfire Hf). apply escalate_fire, Hf.
Qed.




Lemma sumOf_contribution (cs : list Candidate) : sumOf contribution cs = aggregate cs.
Proof. induction cs as [|c cs IH]; simpl; [reflexivity|]. rewrite IH. reflexivity. Qed.

(** C1. For every candidate list and budget ceiling the reconciler returns
    a final list, one suggestion per candidate, whose suggested payroll is
    within the ceiling unless every escalatable employee (candidate
    NO_CHANGE or PROMOTE) has reached FIRE.  The reconciler and the
    aggregator have no failure case: an analysis with a positive budget
    always returns, and the summary carries the ceiling and the suggested
    total, so that a shortfall can be read off it. *)
Theorem reconcile_fits_or_exhausted (budget : Z) (cs : list Candidate) :
  let final := reconcile cut budget cs in
  let s := summarize budget final in
  length final = length cs
  /\ (aggregate final <= budget
      \/ forall i c, cs !! i = Some c -> escalatable c = true ->
           exists c', final !! i = Some c'
                      /\ c_ssid c' = c_ssid c /\ c_action c' = FIRE)
  /\ companyBudget s = budget
  /\ totalSuggestedSalaries s = aggregate final
  /\ (budgetExceeded s = true <-> budget < aggregate final)
  /\ (forall cfg market ssids employees,
         0 < budget ->
         exists a, analyze cfg market cut budget ssids employees = inr a
                   /\ companyBudget (an_summary a) = budget
                   /\ totalSuggestedSalaries (an_summary a) = aggregate (an_results a)).
Proof.
  cbn zeta. pose proof (reconcile_escalated budget cs) as Hesc.
  split; [symmetry; eapply Forall2_length, Hesc|].
  split.
  { unfold reconcile in *. destruct (Z.leb_spec (aggregate cs) budget) as [Hfit|Hover].
    - left. exact Hfit.
    - destruct (walk_fits_or_fired budget (priorityOrder cs) cs) as [Hfit|Hall];
        [left; exact Hfit|right].
      intros i c Hc He.
      destruct (Forall2_lookup_l _ _ _ _ _ Hesc Hc) as (c' & Hc' & Hcc').
      exists c'. split; [exact Hc'|]. split.
      + apply (EscalatedTo_severity _ _ Hcc').
      + apply (Hall i c'); [|exact Hc'].
        apply priorityOrder_spec. exists c. split; assumption. }
  split; [reflexivity|].
  split; [apply sumOf_contribution|].
  split.
  { unfold budgetExceeded. cbn [companyBudget totalSuggestedSalaries summarize].
    rewrite sumOf_contribution. apply Z.ltb_lt. }
  intros cfg market ssids employees Hpos. unfold analyze.
  destruct (Z.leb_spec budget 0); [lia|].
  eexists. split; [reflexivity|]. cbn [an_summary an_results].
  split; [reflexivity|apply sumOf_contribution].
Qed.

(** An analysis only reports on active employees. *)
Lemma analyze_skips_fired (cfg : RuleConfig)
      (market : string -> ExperienceBand -> MarketBand) (budget : Z)
      (ssids : option (list string)) (employees : list EmployeeRecord)
      (a : Analysis) (c : Candidate) :
  analyze cfg market cut budget ssids employees = inr a ->
  c ∈ an_results a ->
  exists e, e ∈ employees /\ e_status e = Active /\ c_ssid c = e_ssid e.
Proof.
  unfold analyze. destruct (_ <=? _); [discriminate|]. intros [= <-] Hin.
  cbn [an_results] in Hin.
  apply list_elem_of_lookup in Hin. destruct Hin as [i Hi].
  destruct (Forall2_lookup_r _ _ _ _ _ (reconcile_escalated budget _) Hi)
    as (c0 & Hc0 & Hesc).
  apply EscalatedTo_severity in Hesc. destruct Hesc as (Hid & _).
  apply list_elem_of_lookup_2, list_elem_of_fmap in Hc0.
  destruct Hc0 as (e & -> & He). apply list_elem_of_filter in He.
  destruct He as [Hact He]. exists e. split; [exact He|]. split.
  - unfold analysed, isActive in Hact. destruct (e_status e); [reflexivity|discriminate].
  - rewrite Hid. reflexivity.
Qed.


End BudgetReconciler.

Section ReconcilerSamples.
Import Api Core.








Lemma reconcile_fits_or_exhausted_witness :
  aggregate (reconcile Sample.cut 50000000 Sample.payroll) <= 50000000
  \/ forall i c, Sample.payroll !! i = Some c -> escalatable c = true ->
        exists c', reconcile Sample.cut 50000000 Sample.payroll !! i = Some c'
                   /\ c_ssid c' = c_ssid c /\ c_action c' = FIRE.
Proof.
  apply (proj1 (proj2 (reconcile_fits_or_exhausted Sample.cut 50000000 Sample.payroll))).
Defined.


(** Budget 50,000,000 against candidates worth 60,000,000: the least
    profitable employee is escalated twice and the payroll fits. *)
Example payroll_reconciled :
  aggregate Sample.payroll = 60000000
  /\ priorityOrder Sample.payroll = [1; 0; 2]%nat
  /\ map c_action (reconcile Sample.cut 50000000 Sample.payroll)
     = [NO_CHANGE; FIRE; PROMOTE]
  /\ aggregate (reconcile Sample.cut 50000000 Sample.payroll) = 40000000.
Proof. vm_compute. repeat split. Qed.

(** A candidate that is already DECREASE_SALARY is outside the escalation
    set: with a ceiling below its figure the walk is exhausted and the
    summary shows the shortfall. *)
Example payroll_shortfall :
  let cs := Sample.candidate "D" 9000000 1000000 DECREASE_SALARY (Some 8000000)
            :: Sample.payroll in
  let final := reconcile Sample.cut 5000000 cs in
  map c_action final = [DECREASE_SALARY; FIRE; FIRE; FIRE]
  /\ aggregate final = 8000000
  /\ budgetExceeded (summarize 5000000 final) = true.
Proof. vm_compute. repeat split. Qed.

End ReconcilerSamples.


Section ActionLedger.
Import Api Core.

Variable faults : FaultPoint -> bool.
Variable now : Z.

(** [applyAction] step by step: the checks in their order, then the two
    writes with the points of failure around them. *)
Lemma applyAction_validation (rq : ApplyRequest) (ts : TxState) :
  applyAction faults now rq ts =
  match parseAction (rq_action rq) with
  | None => inl InvalidAction
  | Some a =>
      if needsPercent a && isNone (rq_changePercent rq) then inl InvalidChangePercent
      else
        match lookupActive (tx_work ts) (rq_ssid rq) with
        | None => inl NotFound
        | Some e =>
            match effectOn e a (rq_changePercent rq) with
            | inl err => inl err
            | inr upd =>
                let applied :=
                  {| ar_ssid := rq_ssid rq; ar_action := actionName a;
                     ar_note := rq_note rq; ar_details := snd upd;
                     ar_appliedAt := now |} in
                if faults BeforeUpdate || faults BetweenUpdateAndAppend
                   || faults BeforeCommit
                then inl StorageFailure
                else
                  inr ((applied, fst upd),
                       {| tx_work :=
                            applyEffect
                              (applyEffect (tx_work ts)
                                           (UpdateEmployee (rq_ssid rq) (fst upd)))
                              (AppendLedger applied);
                          tx_log := (tx_log ts
                                       ++ [UpdateEmployee (rq_ssid rq) (fst upd)])
                                      ++ [AppendLedger applied] |})
            end
        end
  end.
Proof.
  unfold applyAction, bind, orFail, liftResult, failpoint, perform, readStore, ret, fail.
  destruct (parseAction (rq_action rq)) as [a|]; [|reflexivity].
  destruct (needsPercent a && isNone (rq_changePercent rq)); [reflexivity|].
  destruct (lookupActive (tx_work ts) (rq_ssid rq)) as [e|]; [|reflexivity].
  destruct (effectOn e a (rq_changePercent rq)) as [err|upd]; [reflexivity|].
  cbv zeta.
  destruct (faults BeforeUpdate); [reflexivity|].
  destruct (faults BetweenUpdateAndAppend); [reflexivity|].
  destruct (faults BeforeCommit); reflexivity.
Qed.



(** The outcome of the whole operation: a failure commits nothing, a
    success commits one record update and one ledger append. *)
Lemma transact_applyAction (rq : ApplyRequest) (st : Store) :
  let out := transact (applyAction faults now rq) st in
  match result out with
  | inl err => store out = st /\ effects out = []
  | inr (applied, e') =>
      effects out = [UpdateEmployee (rq_ssid rq) e'; AppendLedger applied]
      /\ store out = applyEffect (applyEffect st (UpdateEmployee (rq_ssid rq) e'))
                                 (AppendLedger applied)
      /\ ar_ssid applied = rq_ssid rq
      /\ ar_appliedAt applied = now
      /\ exists e a, lookupActive st (rq_ssid rq) = Some e
                     /\ parseAction (rq_action rq) = Some a
                     /\ effectOn e a (rq_changePercent rq) = inr (e', ar_details applied)
                     /\ (forall p, faults p = false)
  end.
Proof.
  cbn zeta. unfold transact. rewrite applyAction_validation. cbn [tx_work tx_log].
  destruct (parseAction (rq_action rq)) as [a|]; [|split; reflexivity].
  destruct (needsPercent a && isNone (rq_changePercent rq)); [split; reflexivity|].
  destruct (lookupActive st (rq_ssid rq)) as [e|]; [|split; reflexivity].
  destruct (effectOn e a (rq_changePercent rq)) as [err|[e' d]] eqn:Heff;
    [split; reflexivity|].
  cbv zeta. cbn [fst snd].
  destruct (faults BeforeUpdate) eqn:F1; [split; reflexivity|].
  destruct (faults BetweenUpdateAndAppend) eqn:F2; [split; reflexivity|].
  destruct (faults BeforeCommit) eqn:F3; [split; reflexivity|].
  cbn. repeat split. exists e, a. repeat split; [exact Heff|intros []; assumption].
Qed.


End ActionLedger.

Section LedgerClaims.
Import Api Core.

(** The same request goes through when the storage layer does not fail, and
    is refused as a storage failure when it fails between the two writes. *)
Example promote10_between :
  result (transact (applyAction Sample.failBetween 0 Sample.promote10) Sample.company)
  = inl StorageFailure
  /\ match result (transact (applyAction noFaults 0 Sample.promote10) Sample.company) with
     | inr _ => True
     | inl _ => False
     end.
Proof. vm_compute. split; [reflexivity|exact I]. Qed.

(** The run of a salary action, in terms of the functions of the model. *)
Lemma applyAction_salary_run :
  (forall (faults : FaultPoint -> bool) (now : Z) (rq : ApplyRequest) (st : Store)
          (e : EmployeeRecord) (a : DecisionAction) (p : Q),
      (forall pt, faults pt = false) ->
      parseAction (rq_action rq) = Some a ->
      a = DECREASE_SALARY \/ a = PROMOTE ->
      rq_changePercent rq = Some p ->
      lookupActive st (rq_ssid rq) = Some e ->
      0 <= roundQ (inject_Z (e_salary e) * (1 + p / 100)) ->
      let out := transact (applyAction faults now rq) st in
      let s' := roundQ (inject_Z (e_salary e) * (1 + p / 100)) in
      exists applied e',
        result out = inr (applied, e')
        /\ e_salary e' = s'
        /\ e_status e' = e_status e
        /\ employees (store out) !! rq_ssid rq = Some e'
        /\ previousSalary (ar_details applied) = Some (e_salary e)
        /\ newSalary (ar_details applied) = Some s'
        /\ changePercent (ar_details applied) = Some p
        /\ effect (ar_details applied)
           = match a with
             | PROMOTE => "salary increased"
             | _ => "salary decreased"
             end)
  /\ match result (transact (applyAction noFaults 0 Sample.promote10) Sample.company) with
     | inr (applied, e') =>
         e_ssid e' = "E123"
         /\ e_salary Sample.e123 = 800000
         /\ e_salary e' = 880000
         /\ ar_action applied = "PROMOTE"
         /\ effect (ar_details applied) = "salary increased"
         /\ previousSalary (ar_details applied) = Some 800000
         /\ newSalary (ar_details applied) = Some 880000
     | inl _ => False
     end.
Proof.
  split; [|vm_compute; repeat split].
  intros faults now rq st e a p Hnf Ha Hkind Hp He Hpos. cbn zeta.
  unfold transact. rewrite applyAction_validation. cbn [tx_work tx_log].
  rewrite Ha, Hp, He.
  assert (Hneeds : needsPercent a = true) by (destruct Hkind; subst a; reflexivity).
  rewrite Hneeds. cbn [isNone andb].
  assert (Heff : effectOn e a (Some p)
                 = inr (withSalary e (newSalaryOf (e_salary e) p),
                        {| effect := effectText a;
                           previousSalary := Some (e_salary e);
                           newSalary := Some (newSalaryOf (e_salary e) p);
                           flatSalary := None; changePercent := Some p |})).
  { unfold effectOn.
    destruct (Z.ltb_spec (newSalaryOf (e_salary e) p) 0) as [Hneg|_].
    - unfold newSalaryOf in Hneg. lia.
    - destruct Hkind; subst a; reflexivity. }
  rewrite Heff. cbv zeta. cbn [fst snd].
  rewrite !Hnf. cbn [orb result store effects tx_work tx_log].
  eexists _, _. split; [reflexivity|].
  cbn [employees applyEffect ar_details effect previousSalary newSalary
       changePercent withSalary e_salary e_status].
  rewrite lookup_insert_eq.
  repeat split. destruct Hkind; subst a; reflexivity.
Qed.

(** Rounding to the nearest unit: the result is within one half of the
    argument, halves going up. *)
Lemma roundQ_nearest (x : Q) :
  (inject_Z (roundQ x) - (1#2) <= x)%Q /\ (x < inject_Z (roundQ x) + (1#2))%Q.
Proof.
  unfold roundQ.
  pose proof (Qfloor_le (x + (1#2))) as Hle.
  pose proof (Qlt_floor (x + (1#2))) as Hlt.
  rewrite inject_Z_plus in Hlt. change (inject_Z 1) with 1%Q in Hlt.
  split; lra.
Qed.

Lemma roundQ_nonneg (x : Q) : (-(1#2) <= x)%Q <-> 0 <= roundQ x.
Proof.
  destruct (roundQ_nearest x) as [H1 H2]. split.
  - intros Hx. destruct (Z_lt_le_dec (roundQ x) 0) as [Hneg|]; [|assumption].
    exfalso. assert (Hle : roundQ x <= -1) by lia.
    rewrite Zle_Qle in Hle. change (inject_Z (-1)) with (-1)%Q in Hle. lra.
  - intros Hpos. rewrite Zle_Qle in Hpos. change (inject_Z 0) with 0%Q in Hpos. lra.
Qed.

Lemma parseAction_spec (s : string) (a : DecisionAction) :
  parseAction s = Some a <-> s = actionName a.
Proof.
  unfold parseAction.
  destruct (String.eqb_spec s "FIRE") as [->|H1];
    [destruct a; cbn; split; intros H; try reflexivity; discriminate|].
  destruct (String.eqb_spec s "PROMOTE") as [->|H2];
    [destruct a; cbn; split; intros H; try reflexivity; discriminate|].
  destruct (String.eqb_spec s "DECREASE_SALARY") as [->|H3];
    [destruct a; cbn; split; intros H; try reflexivity; discriminate|].
  destruct (String.eqb_spec s "NO_CHANGE") as [->|H4];
    [destruct a; cbn; split; intros H; try reflexivity; discriminate|].
  split; [discriminate|]. intros ->. destruct a; contradiction.
Qed.

Lemma lookupActive_spec (st : Store) (id : string) (e : EmployeeRecord) :
  lookupActive st id = Some e <-> employees st !! id = Some e /\ e_status e = Active.
Proof.
  unfold lookupActive, isActive. destruct (employees st !! id) as [e0|].
  - destruct (e_status e0) eqn:Hs; split.
    + intros [= <-]. auto.
    + intros [[= <-] _]. reflexivity.
    + discriminate.
    + intros [[= <-] H]. congruence.
  - split; [discriminate|]. intros [H _]. discriminate.
Qed.

(** C5. An ApplyAction with action DECREASE_SALARY or PROMOTE and a change
    percent, on an active employee, with a storage layer that does not fail
    and a new salary that does not round below 0, succeeds.  The new salary
    is the integer nearest to [currentSalary * (1 + changePercent / 100)]
    (within one half of it, halves going up), nothing else of the record
    changes, and the one ledger entry appended records the previous salary,
    the new salary, the percent and the effect text.  In particular PROMOTE
    with 10 percent on a salary of 800,000 gives 880,000, effect "salary
    increased", previousSalary 800000 and newSalary 880000; a cut of 7.5
    percent on 333,333 gives 308,333, and 10 percent on 5 gives 6. *)
Theorem applyAction_new_salary :
  (forall (faults : FaultPoint -> bool) (now : Z) (rq : ApplyRequest) (st : Store)
          (e : EmployeeRecord) (p : Q),
      (forall pt, faults pt = false) ->
      rq_action rq = "DECREASE_SALARY" \/ rq_action rq = "PROMOTE" ->
      rq_changePercent rq = Some p ->
      employees st !! rq_ssid rq = Some e ->
      e_status e = Active ->
      (-(1#2) <= inject_Z (e_salary e) * (1 + p / 100))%Q ->
      let out := transact (applyAction faults now rq) st in
      let exact := (inject_Z (e_salary e) * (1 + p / 100))%Q in
      exists applied e',
        result out = inr (applied, e')
        /\ (inject_Z (e_salary e') - (1#2) <= exact)%Q
        /\ (exact < inject_Z (e_salary e') + (1#2))%Q
        /\ e' = {| e_ssid := e_ssid e; e_name := e_name e; e_role := e_role e;
                   e_performance := e_performance e;
                   e_experience := e_experience e;
                   e_salary := e_salary e'; e_revenue := e_revenue e;
                   e_status := Active |}
        /\ employees (store out) = <[rq_ssid rq := e']> (employees st)
        /\ ledger (store out) = (ledger st ++ [applied])%list
        /\ applied
           = {| ar_ssid := rq_ssid rq; ar_action := rq_action rq;
                ar_note := rq_note rq;
                ar_details :=
                  {| effect := if String.eqb (rq_action rq) "PROMOTE"
                               then "salary increased" else "salary decreased";
                     previousSalary := Some (e_salary e);
                     newSalary := Some (e_salary e');
                     flatSalary := None;
                     changePercent := Some p |};
                ar_appliedAt := now |})
  /\ match result (transact (applyAction noFaults 0 Sample.promote10) Sample.company) with
     | inr (applied, e') =>
         e_ssid e' = "E123"
         /\ e_salary Sample.e123 = 800000
         /\ e_salary e' = 880000
         /\ ar_action applied = "PROMOTE"
         /\ effect (ar_details applied) = "salary increased"
         /\ previousSalary (ar_details applied) = Some 800000
         /\ newSalary (ar_details applied) = Some 880000
     | inl _ => False
     end
  /\ (let st := {| employees := <["E5" := Sample.record "E5" stable junior 333333 0 Active]> ∅;
                   ledger := [] |} in
      let rq := {| rq_ssid := "E5"; rq_action := "DECREASE_SALARY";
                   rq_note := None; rq_changePercent := Some (-15#2) |} in
      match result (transact (applyAction noFaults 7 rq) st) with
      | inr (applied, e') =>
          e_salary e' = 308333
          /\ effect (ar_details applied) = "salary decreased"
          /\ newSalary (ar_details applied) = Some 308333
      | inl _ => False
      end)
  /\ (let st := {| employees := <["E6" := Sample.record "E6" stable junior 5 0 Active]> ∅;
                   ledger := [] |} in
      let rq := {| rq_ssid := "E6"; rq_action := "PROMOTE";
                   rq_note := None; rq_changePercent := Some (10#1) |} in
      match result (transact (applyAction noFaults 7 rq) st) with
      | inr (applied, e') => e_salary e' = 6
      | inl _ => False
      end).
Proof.
  split; [|split; [vm_compute; repeat split|split; vm_compute; repeat split]].
  intros faults now rq st e p Hnf Hact Hp He Hst Hpos. cbn zeta.
  assert (Ha : exists a, parseAction (rq_action rq) = Some a
                         /\ (a = DECREASE_SALARY \/ a = PROMOTE)
                         /\ rq_action rq = actionName a).
  { destruct Hact as [H|H]; [exists DECREASE_SALARY|exists PROMOTE];
      (split; [apply parseAction_spec; exact H|auto]). }
  destruct Ha as (a & Ha & Hkind & Hname).
  assert (Hl : lookupActive st (rq_ssid rq) = Some e)
    by (apply lookupActive_spec; auto).
  assert (Hr : 0 <= roundQ (inject_Z (e_salary e) * (1 + p / 100)))
    by (apply roundQ_nonneg; exact Hpos).
  destruct (proj1 applyAction_salary_run faults now rq st e a p Hnf Ha Hkind Hp Hl Hr)
    as (applied & e' & Hres & Hsal & Hstat & _ & _ & _ & _ & _).
  pose proof (transact_applyAction faults now rq st) as Hrun. cbn zeta in Hrun.
  rewrite Hres in Hrun.
  destruct Hrun as (_ & Hstore & Hid & Hat & e0 & a0 & He0 & Ha0 & Heff & _).
  rewrite Hl in He0. injection He0 as <-. rewrite Ha in Ha0. injection Ha0 as <-.
  rewrite Hp in Heff.
  exists applied, e'. split; [exact Hres|].
  destruct (roundQ_nearest (inject_Z (e_salary e) * (1 + p / 100))) as [H1 H2].
  rewrite Hsal. split; [exact H1|]. split; [exact H2|].
  assert (Hnotneg : (newSalaryOf (e_salary e) p <? 0) = false)
    by (apply Z.ltb_ge; exact Hr).
  assert (He' : e' = withSalary e (newSalaryOf (e_salary e) p)
                /\ ar_details applied
                   = {| effect := effectText a;
                        previousSalary := Some (e_salary e);
                        newSalary := Some (newSalaryOf (e_salary e) p);
                        flatSalary := None; changePercent := Some p |}).
  { unfold effectOn in Heff. rewrite Hnotneg in Heff.
    destruct Hkind; subst a; injection Heff as <- <-; split; reflexivity. }
  destruct He' as [He' Hdet].
  split.
  { rewrite He'. unfold withSalary. cbn [e_salary]. rewrite Hst. reflexivity. }
  rewrite Hstore. cbn [applyEffect employees ledger].
  split; [reflexivity|]. split; [reflexivity|].
  destruct applied as [aid aact anote adet aat]. cbn in Hid, Hat, Hdet.
  subst aid aat adet.
  assert (Hrec := Hres). unfold transact in Hrec.
  rewrite applyAction_validation in Hrec. cbn [tx_work tx_log] in Hrec.
  rewrite Ha, Hp, Hl in Hrec.
  assert (Hneeds : needsPercent a = true) by (destruct Hkind; subst a; reflexivity).
  rewrite Hneeds in Hrec. cbn [isNone andb] in Hrec.
  destruct (effectOn e a (Some p)) as [err|upd]; [discriminate|].
  cbv zeta in Hrec. rewrite !Hnf in Hrec. cbn [orb result] in Hrec.
  injection Hrec as Hact' Hnote _ _. 
  rewrite <- Hact', <- Hnote, Hname. unfold newSalaryOf.
  destruct Hkind; subst a; reflexivity.
Qed.

Lemma applyAction_new_salary_witness :
  exists applied e',
    result (transact (applyAction noFaults 0 Sample.promote10) Sample.company)
    = inr (applied, e')
    /\ (inject_Z (e_salary e') - (1#2) <= inject_Z 800000 * (1 + (10#1) / 100))%Q
    /\ (inject_Z 800000 * (1 + (10#1) / 100) < inject_Z (e_salary e') + (1#2))%Q.
Proof.
  destruct (proj1 applyAction_new_salary noFaults 0 Sample.promote10 Sample.company
              Sample.e123 (10#1)) as (applied & e' & H1 & H2 & H3 & _).
  - reflexivity.
  - right. reflexivity.
  - reflexivity.
  - vm_compute. reflexivity.
  - reflexivity.
  - vm_compute. discriminate.
  - exists applied, e'. auto.
Defined.








(** In the model the request is refused as InvalidAction. *)
Lemma notFound_masked_by_validation :
  ~ (result (transact (applyAction noFaults 0 Sample.hireGhost) Sample.company)
     = inl NotFound
     <-> lookupActive Sample.company (rq_ssid Sample.hireGhost) = None).
Proof.
  intros [_ H].
  assert (E : lookupActive Sample.company (rq_ssid Sample.hireGhost) = None)
    by (vm_compute; reflexivity).
  specialize (H E). vm_compute in H. discriminate.
Qed.

End LedgerClaims.

(* ===================================================================== *)
(** ** Further properties of the front end                                *)
(* ===================================================================== *)

Section Selection.
Import Api.

Lemma find_ssid_some (employees : list Employee) (i : string) (e : Employee) :
  find (fun emp => String.eqb (ssid emp) i) employees = Some e ->
  In e employees /\ ssid e = i.
Proof.
  intros H. apply find_some in H. destruct H as [Hin Heq].
  split; [exact Hin|]. apply String.eqb_eq, Heq.
Qed.

Lemma find_ssid_none (employees : list Employee) (i : string) :
  find (fun emp => String.eqb (ssid emp) i) employees = None <->
  forall e, In e employees -> ssid e <> i.
Proof.
  split.
  - intros H e Hin Heq. pose proof (find_none _ _ H e Hin) as Hf. cbn in Hf.
    apply String.eqb_neq in Hf. contradiction.
  - intros H. destruct (find _ employees) as [e|] eqn:Hf; [|reflexivity].
    apply find_ssid_some in Hf. destruct Hf as [Hin Heq].
    exfalso. apply (H e Hin Heq).
Qed.

(** The employee of the detail panel exists exactly when the list is not
    empty and is always taken from the list; an identifier carried by some
    employee selects an employee with that identifier; any other identifier
    (none, or a stale one) selects the first employee. *)
Theorem selectedEmployee_spec (employees : list Employee) (id : option string) :
  (App.selectedEmployee employees id = None <-> employees = [])
  /\ (forall e, App.selectedEmployee employees id = Some e -> In e employees)
  /\ (forall i, id = Some i -> (exists e, In e employees /\ ssid e = i) ->
        exists e, App.selectedEmployee employees id = Some e /\ ssid e = i)
  /\ ((forall i, id = Some i -> forall e, In e employees -> ssid e <> i) ->
        App.selectedEmployee employees id = head employees).
Proof.
  unfold App.selectedEmployee.
  split; [|split; [|split]].
  - destruct id as [i|].
    + destruct (find _ employees) as [e|] eqn:Hf.
      * apply find_ssid_some in Hf. destruct Hf as [Hin _].
        split; [discriminate|]. intros ->. destruct Hin.
      * destruct employees; split; intros H; try reflexivity; discriminate.
    + destruct employees; split; intros H; try reflexivity; discriminate.
  - intros e. destruct id as [i|].
    + destruct (find _ employees) as [e'|] eqn:Hf.
      * intros [= <-]. apply (find_ssid_some _ _ _ Hf).
      * destruct employees; [discriminate|]. intros [= <-]. left. reflexivity.
    + destruct employees; [discriminate|]. intros [= <-]. left. reflexivity.
  - intros i -> (e & Hin & Heq).
    destruct (find _ employees) as [e'|] eqn:Hf.
    + exists e'. split; [reflexivity|]. apply (find_ssid_some _ _ _ Hf).
    + exfalso. apply (proj1 (find_ssid_none employees i) Hf e Hin Heq).
  - intros H. destruct id as [i|]; [|reflexivity].
    rewrite (proj2 (find_ssid_none employees i) (H i eq_refl)). reflexivity.
Qed.

Lemma selectedEmployee_spec_witness :
  exists e,
    App.selectedEmployee [Sample.firedEmployee; Sample.activeEmployee] (Some "E2")
    = Some e /\ ssid e = "E2".
Proof.
  apply (proj1 (proj2 (proj2 (selectedEmployee_spec
           [Sample.firedEmployee; Sample.activeEmployee] (Some "E2")))) "E2").
  - reflexivity.
  - exists Sample.activeEmployee. split; [right; left; reflexivity|reflexivity].
Defined.

(** The test of the class [selected] and the detail panel agree: when an
    employee of the list passes the test [employee.ssid === selectedEmployeeId],
    the detail panel shows an employee with the same identifier; when no
    employee of the list passes it (the identifier is null or stale), the
    detail panel shows the first employee. *)
Theorem highlight_and_detail (employees : list Employee) (id : option string) :
  (forall e, In e employees -> Ui.rowSelected e id = true ->
     exists d, App.selectedEmployee employees id = Some d /\ ssid d = ssid e)
  /\ ((forall e, In e employees -> Ui.rowSelected e id = false) ->
      App.selectedEmployee employees id = head employees).
Proof.
  split.
  - intros e Hin Hsel. destruct id as [i|]; [|discriminate].
    cbn in Hsel. apply String.eqb_eq in Hsel.
    unfold App.selectedEmployee.
    destruct (find _ employees) as [d|] eqn:Hf.
    + exists d. split; [reflexivity|].
      rewrite Hsel. apply (find_ssid_some _ _ _ Hf).
    + exfalso. apply (proj1 (find_ssid_none employees i) Hf e Hin Hsel).
  - intros H. unfold App.selectedEmployee. destruct id as [i|]; [|reflexivity].
    assert (Hnone : find (fun emp => String.eqb (ssid emp) i) employees = None).
    { apply find_ssid_none. intros e Hin Heq. specialize (H e Hin). cbn in H.
      apply String.eqb_neq in H. contradiction. }
    rewrite Hnone. reflexivity.
Qed.

Lemma highlight_and_detail_witness :
  App.selectedEmployee [Sample.firedEmployee; Sample.activeEmployee] (Some "E5")
  = Some Sample.firedEmployee.
Proof.
  apply (proj2 (highlight_and_detail
                  [Sample.firedEmployee; Sample.activeEmployee] (Some "E5"))).
  intros e [<-|[<-|[]]]; reflexivity.
Defined.

(** The detail panel is not restricted to the rows of the table: with
    distinct identifiers, a selected employee whose status is FIRED has no
    row in the table. *)
Theorem detail_of_hidden_employee (employees : list Employee) (id : option string)
        (e : Employee) :
  NoDup (map ssid employees) ->
  App.selectedEmployee employees id = Some e ->
  status e = "FIRED" ->
  forall row, In row (App.tableRows employees) -> App.row_ssid row <> ssid e.
Proof.
  intros Hnd Hsel Hfired row Hrow Heq.
  assert (Hin : In e employees).
  { unfold App.selectedEmployee in Hsel. destruct id as [i|].
    - destruct (find _ employees) as [e'|] eqn:Hf.
      + inversion Hsel; subst. apply (find_ssid_some _ _ _ Hf).
      + destruct employees; [discriminate|]. inversion Hsel; subst. left. reflexivity.
    - destruct employees; [discriminate|]. inversion Hsel; subst. left. reflexivity. }
  unfold App.tableRows in Hrow. apply in_map_iff in Hrow.
  destruct Hrow as (e' & <- & He'). cbn [App.row_ssid] in Heq.
  apply list_elem_of_In, list_elem_of_filter in He'. destruct He' as [Hnf He'].
  apply list_elem_of_In in He'.
  assert (e' = e).
  { clear -Hnd Hin He' Heq. induction employees as [|x l IH]; [destruct Hin|].
    cbn in Hnd. apply NoDup_cons in Hnd. destruct Hnd as [Hx Hnd].
    destruct Hin as [->|Hin], He' as [->|He']; auto.
    - exfalso. apply Hx. rewrite <- Heq. apply list_elem_of_fmap.
      exists e'. split; [reflexivity|apply list_elem_of_In, He'].
    - exfalso. apply Hx. rewrite Heq. apply list_elem_of_fmap.
      exists e. split; [reflexivity|apply list_elem_of_In, Hin]. }
  subst e'. unfold App.notFired in Hnf. rewrite Hfired in Hnf. discriminate.
Qed.

Lemma detail_of_hidden_employee_witness :
  App.row_ssid {| App.row_ssid := "E2"; App.row_profit := 1200000;
                  App.row_margin := App.marginOf Sample.activeEmployee;
                  App.row_action := App.keep |}
  <> ssid Sample.firedEmployee.
Proof.
  apply (detail_of_hidden_employee
           [Sample.firedEmployee; Sample.activeEmployee] None Sample.firedEmployee).
  4: { left. reflexivity. }
  - cbn. apply NoDup_cons. split; [|apply NoDup_singleton].
    intros H. apply list_elem_of_singleton in H. discriminate.
  - reflexivity.
  - reflexivity.
Defined.

End Selection.

Section ActionHistory.
Import Api.

(** The action history of the detail panel shows at most five entries, all
    of them entries of the selected employee, namely the first ones in the
    order of the list (all of them when there are at most five); the note
    "No actions taken yet." is shown exactly when no entry is shown. *)
Theorem actionHistory_spec (actions : list ActionRecord) (selected : Employee) :
  let history := Ui.actionHistory actions selected in
  let own := filter (fun a => ar_ssid a = ssid selected) actions in
  (length history <= 5)%nat
  /\ (forall a, a ∈ history -> a ∈ actions /\ ar_ssid a = ssid selected)
  /\ (exists later, own = (history ++ later)%list)
  /\ ((length own <= 5)%nat -> history = own)
  /\ (Ui.noActionsYet actions selected = true <-> history = []).
Proof.
  cbn zeta. unfold Ui.actionHistory, Ui.noActionsYet.
  set (own := filter (fun a => ar_ssid a = ssid selected) actions).
  repeat split.
  - rewrite length_take. lia.
  - apply elem_of_take in H. destruct H as (i & Hi & _).
    apply list_elem_of_lookup_2 in Hi. apply list_elem_of_filter in Hi. apply Hi.
  - apply elem_of_take in H. destruct H as (i & Hi & _).
    apply list_elem_of_lookup_2 in Hi. apply list_elem_of_filter in Hi. apply Hi.
  - exists (drop 5 own). symmetry. apply take_drop.
  - intros H. apply take_ge. exact H.
  - intros H. apply Nat.eqb_eq in H. destruct own; [reflexivity|discriminate].
  - intros H. apply Nat.eqb_eq. destruct own; [reflexivity|discriminate].
Qed.

Lemma actionHistory_spec_witness :
  Ui.actionHistory [] Sample.activeEmployee
  = filter (fun a => ar_ssid a = ssid Sample.activeEmployee) [].
Proof.
  apply (proj1 (proj2 (proj2 (proj2 (actionHistory_spec [] Sample.activeEmployee))))).
  cbn. lia.
Defined.

End ActionHistory.

Section OrgTotals.
Import Api.

Lemma addEmployee_comm (acc : App.Totals) (x y : Employee) :
  App.addEmployee (App.addEmployee acc x) y
  = App.addEmployee (App.addEmployee acc y) x.
Proof.
  unfold App.addEmployee. cbn [App.atRisk App.totalSalary App.totalRevenue App.netProfit].
  f_equal; try lia.
  destruct (_ <? 0), (_ <? 0); lia.
Qed.

Lemma fold_addEmployee_perm (l1 l2 : list Employee) :
  l1 ≡ₚ l2 ->
  forall acc, fold_left App.addEmployee l1 acc = fold_left App.addEmployee l2 acc.
Proof.
  induction 1 as [|x l1 l2 _ IH|x y l|l1 l2 l3 _ IH1 _ IH2]; intros acc; cbn.
  - reflexivity.
  - apply IH.
  - rewrite addEmployee_comm. reflexivity.
  - rewrite IH1. apply IH2.
Qed.

(** On integral amounts in the exact range, the totals of the organisation
    summary over two lists put together are the sums of the totals over
    each. *)
Theorem orgTotals_app (l1 l2 : list Employee) :
  exactRange (l1 ++ l2) ->
  let t := App.orgTotals (l1 ++ l2) in
  let t1 := App.orgTotals l1 in
  let t2 := App.orgTotals l2 in
  App.atRisk t = App.atRisk t1 + App.atRisk t2
  /\ App.totalSalary t = App.totalSalary t1 + App.totalSalary t2
  /\ App.totalRevenue t = App.totalRevenue t1 + App.totalRevenue t2
  /\ App.netProfit t = App.netProfit t1 + App.netProfit t2.
Proof.
  intros _.
  cbn zeta. unfold App.orgTotals. rewrite fold_left_app.
  destruct (fold_addEmployee l2 (fold_left App.addEmployee l1 App.noTotals))
    as (Ha & Hs & Hr & Hp).
  destruct (fold_addEmployee l2 App.noTotals) as (Ha' & Hs' & Hr' & Hp').
  cbn zeta in *.
  cbn [App.noTotals App.atRisk App.totalSalary App.totalRevenue App.netProfit]
    in Ha', Hs', Hr', Hp'.
  rewrite Ha, Hs, Hr, Hp, Ha', Hs', Hr', Hp'. repeat split; lia.
Qed.

Lemma orgTotals_app_witness :
  App.totalSalary (App.orgTotals ([Sample.firedEmployee] ++ [Sample.activeEmployee]))
  = App.totalSalary (App.orgTotals [Sample.firedEmployee])
    + App.totalSalary (App.orgTotals [Sample.activeEmployee]).
Proof.
  apply (proj1 (proj2 (orgTotals_app [Sample.firedEmployee] [Sample.activeEmployee]
                         ltac:(vm_compute; discriminate)))).
Defined.

(** On integral amounts in the exact range, the organisation summary does
    not depend on the order of the employees. *)
Theorem orgSummary_perm (l1 l2 : list Employee) :
  exactRange l1 ->
  l1 ≡ₚ l2 -> App.orgSummary l1 = App.orgSummary l2.
Proof.
  intros _ H. unfold App.orgSummary, App.orgTotals.
  rewrite (fold_addEmployee_perm l1 l2 H). reflexivity.
Qed.

Lemma orgSummary_perm_witness :
  App.orgSummary [Sample.firedEmployee; Sample.activeEmployee]
  = App.orgSummary [Sample.activeEmployee; Sample.firedEmployee].
Proof.
  apply (orgSummary_perm [Sample.firedEmployee; Sample.activeEmployee]
                         [Sample.activeEmployee; Sample.firedEmployee]).
  - vm_compute. discriminate.
  - apply Permutation_swap.
Defined.

Lemma filter_length_le {A} (f : A -> bool) (l : list A) :
  (length (List.filter f l) <= length l)%nat.
Proof.
  induction l as [|x l IH]; cbn; [lia|]. destruct (f x); cbn; lia.
Qed.

Lemma negative_sum_has_negative {A} (f : A -> Z) (l : list A) :
  sumZ (map f l) < 0 ->
  (0 < length (List.filter (fun x => (f x <? 0)%Z) l))%nat.
Proof.
  unfold sumZ. induction l as [|x l IH]; cbn [map foldr List.filter]; [lia|].
  intros H. destruct (Z.ltb_spec (f x) 0); cbn [length]; [lia|].
  apply IH. lia.
Qed.

(** The number of employees flagged in the header is between 0 and the
    number of employees; a negative net profit of the organisation flags at
    least one employee, and with nobody flagged the net profit is not
    negative. *)
Theorem atRisk_bounds (employees : list Employee) :
  let t := App.totals (App.orgSummary employees) in
  0 <= App.atRisk t <= Z.of_nat (length employees)
  /\ (App.netProfit t < 0 -> 1 <= App.atRisk t)
  /\ (App.atRisk t = 0 -> 0 <= App.netProfit t).
Proof.
  cbn zeta. unfold App.orgSummary, App.orgTotals. cbn [App.totals].
  destruct (fold_addEmployee employees App.noTotals) as (Ha & _ & _ & Hp).
  cbn zeta in Ha, Hp. cbn [App.noTotals App.atRisk App.netProfit] in Ha, Hp.
  rewrite Ha, Hp.
  pose proof (filter_length_le (fun e => App.profitOf e <? 0) employees) as Hle.
  assert (Hneg : sumZ (map App.profitOf employees) < 0 ->
                 (0 < length (List.filter (fun e => (App.profitOf e <? 0)%Z)
                                          employees))%nat)
    by apply negative_sum_has_negative.
  repeat split; lia.
Qed.

Lemma atRisk_bounds_witness :
  1 <= App.atRisk (App.totals (App.orgSummary [Sample.firedEmployee])).
Proof.
  apply (proj1 (proj2 (atRisk_bounds [Sample.firedEmployee]))).
  vm_compute. reflexivity.
Defined.

End OrgTotals.

Section MarginSign.
Import Api.

Lemma Qdiv_pos_sign (p r : Z) :
  0 < r ->
  ((inject_Z p / inject_Z r < 0)%Q <-> p < 0)
  /\ ((inject_Z p / inject_Z r == 0)%Q <-> p = 0)
  /\ (p <= r -> (inject_Z p / inject_Z r <= 1)%Q).
Proof.
  intros Hr. destruct r as [|r|r]; try lia.
  unfold Qdiv, Qinv, Qmult, Qlt, Qle, Qeq, inject_Z. cbn.
  repeat split; intros; lia.
Qed.

(** For an employee with a positive revenue the margin shown is negative
    exactly when the employee is flagged (revenue minus salary negative),
    it is 0 exactly at break-even, and it is at most 1 when the salary is not
    negative.  An employee without revenue and with a positive salary is
    flagged although the margin shown is 0. *)
Theorem margin_sign (emp : Employee) :
  (forall r, revenue emp = Some r -> 0 < r ->
     exists q, App.marginOf emp = Js.Fin q
               /\ ((q < 0)%Q <-> App.profitOf emp < 0)
               /\ ((q == 0)%Q <-> App.profitOf emp = 0)
               /\ (0 <= Js.orZero (salary emp) -> (q <= 1)%Q))
  /\ (Js.orZero (revenue emp) = 0 -> 0 < Js.orZero (salary emp) ->
      App.marginOf emp = Js.Fin 0
      /\ forall acc, App.atRisk (App.addEmployee acc emp) = App.atRisk acc + 1).
Proof.
  split.
  - intros r Hr Hpos. rewrite marginOf_cases. rewrite Hr. cbn [Js.orZero].
    destruct (Z.eqb_spec r 0); [lia|].
    eexists. split; [reflexivity|].
    destruct (Qdiv_pos_sign (App.profitOf emp) r Hpos) as (H1 & H2 & H3).
    split; [exact H1|]. split; [exact H2|].
    intros Hs. apply H3. unfold App.profitOf. rewrite Hr. cbn [Js.orZero]. lia.
  - intros Hr Hs. split.
    + rewrite marginOf_cases, Hr. reflexivity.
    + intros acc. unfold App.addEmployee. cbn [App.atRisk]. rewrite Hr.
      destruct (Z.ltb_spec (0 - Js.orZero (salary emp)) 0); [reflexivity|lia].
Qed.

Lemma margin_sign_witness :
  exists q, App.marginOf Sample.firedEmployee = Js.Fin q
            /\ ((q < 0)%Q <-> App.profitOf Sample.firedEmployee < 0)
            /\ ((q == 0)%Q <-> App.profitOf Sample.firedEmployee = 0)
            /\ (0 <= Js.orZero (salary Sample.firedEmployee) -> (q <= 1)%Q).
Proof.
  apply (proj1 (margin_sign Sample.firedEmployee) 400000).
  - reflexivity.
  - lia.
Defined.




End MarginSign.

Section ApplyButton.
Import Api.

(** The two action mappings are inverse bijections: from a UI action to
    the backend action and back gives the UI action again, distinct UI
    actions are sent as distinct backend actions, and every backend action
    is reached. *)
Theorem ui_backend_bijection :
  (forall u, App.mapBackendAction (Some (actionName (App.mapUIActionToBackend u))) = u)
  /\ (forall u v, u <> v -> App.mapUIActionToBackend u <> App.mapUIActionToBackend v)
  /\ (forall a, exists u, App.mapUIActionToBackend u = a).
Proof.
  split; [|split].
  - intros []; reflexivity.
  - intros [] []; cbn; intros H; try discriminate; contradiction.
  - intros []; [exists App.fire|exists App.increase|exists App.decrease|exists App.keep];
      reflexivity.
Qed.

Lemma ui_backend_bijection_witness :
  App.mapUIActionToBackend App.increase <> App.mapUIActionToBackend App.keep.
Proof.
  apply (proj1 (proj2 ui_backend_bijection) App.increase App.keep). discriminate.
Defined.

(** The Apply button sends the suggestion as it stands: for an employee
    whose suggestion names (in any letter case) one of the four actions, the
    request carries the identifier of the employee, that action, no note and
    the recommended change percent of the suggestion. *)
Theorem apply_sends_suggestion (emp : Employee) (sg : Suggestion) (s : string)
        (a : DecisionAction) :
  suggestion emp = Some sg ->
  action sg = Some s ->
  Js.isAscii s = true ->
  Js.sameUpToCase s (actionName a) = true ->
  App.handleApplyAction (Some emp) (App.d_action (App.selectedDecision (Some emp)))
  = Some {| App.rq_ssid := ssid emp;
            App.rq_action := a;
            App.rq_note := None;
            App.rq_changePercent := recommended_change_percent sg |}.
Proof.
  intros Hsg Hs _ Hcase.
  unfold App.handleApplyAction, App.selectedDecision. rewrite Hsg.
  cbn [App.d_action App.d_changePercent]. rewrite Hs.
  rewrite (mapBackendAction_same_upper s (actionName a))
    by (apply sameUpToCase_upper, Hcase).
  destruct a; reflexivity.
Qed.

Lemma apply_sends_suggestion_witness :
  let sg := {| action := Some "promote"; confidence := Some (4#5);
               reasoning := "Strong margin"; suggestedSalary := Some 900000;
               recommended_change_percent := Some (25#2) |} in
  let emp := {| ssid := "E2"; name := "Ravi"; role := "Engineer";
                performance := strong; experience := senior;
                salary := Some 800000; revenue := Some 2000000;
                status := "ACTIVE"; suggestion := Some sg |} in
  App.handleApplyAction (Some emp) (App.d_action (App.selectedDecision (Some emp)))
  = Some {| App.rq_ssid := "E2"; App.rq_action := PROMOTE;
            App.rq_note := None; App.rq_changePercent := Some (25#2) |}.
Proof.
  intros sg emp.
  apply (apply_sends_suggestion emp sg "promote" PROMOTE); reflexivity.
Defined.

End ApplyButton.

(* ===================================================================== *)
(** ** Properties of the API client and of the handlers                   *)
(* ===================================================================== *)

Section ApiClient.




(** An [error] member that is an empty array is truthy and its text is
    empty: the message thrown is then empty. *)
Example empty_array_error :
  Http.analyzeEmployees
    (Http.Resolved {| Http.status := 400;
                      Http.errorMember := Some {| Http.truthy := true; Http.text := "" |};
                      Http.json := tt |})
  = inl "".
Proof. reflexivity. Qed.

End ApiClient.

Section Handlers.
Import Api.

Lemma selectedEmployee_in (employees : list Employee) (id : option string) :
  employees <> [] ->
  exists e, App.selectedEmployee employees id = Some e /\ In e employees.
Proof.
  intros Hne. unfold App.selectedEmployee.
  destruct (match id with
            | Some i => find (fun emp => String.eqb (ssid emp) i) employees
            | None => None
            end) as [e|] eqn:Hf.
  - exists e. split; [reflexivity|]. destruct id as [i|]; [|discriminate].
    apply (find_ssid_some _ _ _ Hf).
  - destruct employees as [|e l]; [contradiction|].
    exists e. split; [reflexivity|left; reflexivity].
Qed.

Lemma selectedEmployee_match (employees : list Employee) (i : string) (e0 : Employee) :
  In e0 employees -> ssid e0 = i ->
  exists e, App.selectedEmployee employees (Some i) = Some e /\ ssid e = i.
Proof.
  intros Hin Heq. unfold App.selectedEmployee.
  destruct (find _ employees) as [e|] eqn:Hf.
  - exists e. split; [reflexivity|]. apply (find_ssid_some _ _ _ Hf).
  - exfalso. apply (proj1 (find_ssid_none employees i) Hf e0 Hin Heq).
Qed.

(** After a successful load of a non-empty list the detail panel shows an
    employee of the new list: the one that was selected before, by its
    non-empty identifier, when the new list still has it, and the first
    employee of the new list when nothing was selected (null or the empty
    string, which [!selectedEmployeeId] treats alike).  A non-empty
    identifier that the new list no longer has is kept as it is: the detail
    panel then shows the first employee while no employee passes the test of
    the class [selected]. *)
Theorem load_keeps_selection (st : Ui.State)
        (f : Http.Fetched Ui.EmployeesResponse) (data : Ui.EmployeesResponse) :
  Http.fetchEmployees f = inr data ->
  Ui.r_employees data <> [] ->
  let st' := Ui.loadEmployees st f in
  exists e,
    App.selectedEmployee (Ui.employees st') (Ui.selectedEmployeeId st') = Some e
    /\ In e (Ui.r_employees data)
    /\ (forall i, Ui.selectedEmployeeId st = Some i -> i <> "" ->
          (exists e0, In e0 (Ui.r_employees data) /\ ssid e0 = i) -> ssid e = i)
    /\ (Ui.unset (Ui.selectedEmployeeId st) = true ->
        Some e = head (Ui.r_employees data))
    /\ (forall i, Ui.selectedEmployeeId st = Some i -> i <> "" ->
          (forall e0, In e0 (Ui.r_employees data) -> ssid e0 <> i) ->
          Ui.selectedEmployeeId st' = Some i
          /\ Some e = head (Ui.r_employees data)
          /\ forall e0, In e0 (Ui.r_employees data) ->
                        Ui.rowSelected e0 (Ui.selectedEmployeeId st') = false).
Proof.
  intros Hf Hne. cbn zeta. unfold Ui.loadEmployees. rewrite Hf.
  cbn [Ui.employees Ui.selectedEmployeeId].
  destruct (Ui.r_employees data) as [|first rest] eqn:Hl; [contradiction|].
  destruct (Ui.unset (Ui.selectedEmployeeId st)) eqn:Hun.
  - assert (Hnot : forall i, Ui.selectedEmployeeId st = Some i -> i <> "" -> False).
    { intros i Hi Hnz. rewrite Hi in Hun. cbn in Hun.
      apply String.eqb_eq in Hun. contradiction. }
    exists first. unfold App.selectedEmployee. cbn [find].
    rewrite String.eqb_refl.
    split; [reflexivity|]. split; [left; reflexivity|].
    split; [intros i Hi Hnz _; destruct (Hnot i Hi Hnz)|].
    split; [reflexivity|].
    intros i Hi Hnz _. destruct (Hnot i Hi Hnz).
  - destruct (selectedEmployee_in (first :: rest) (Ui.selectedEmployeeId st)
                ltac:(discriminate)) as (e & He & Hin).
    exists e. split; [exact He|]. split; [exact Hin|].
    split; [|split; [discriminate|]].
    + intros i Hi _ (e0 & Hin0 & Heq0). rewrite Hi in He.
      destruct (selectedEmployee_match _ _ _ Hin0 Heq0) as (e' & He' & Hid).
      congruence.
    + intros i Hi _ Hstale. split; [exact Hi|]. split.
      * rewrite Hi in He. unfold App.selectedEmployee in He.
        rewrite (proj2 (find_ssid_none (first :: rest) i) Hstale) in He.
        symmetry. exact He.
      * intros e0 Hin0. rewrite Hi. cbn.
        apply String.eqb_neq, Hstale, Hin0.
Qed.

Lemma load_keeps_selection_witness :
  let data := {| Ui.r_employees := [Sample.firedEmployee; Sample.activeEmployee];
                 Ui.r_actions := [] |} in
  let f := Http.Resolved {| Http.status := 200; Http.errorMember := None;
                            Http.json := data |} in
  exists e,
    App.selectedEmployee (Ui.employees (Ui.loadEmployees Ui.initial f))
                         (Ui.selectedEmployeeId (Ui.loadEmployees Ui.initial f))
    = Some e
    /\ In e (Ui.r_employees data)
    /\ (forall i, Ui.selectedEmployeeId Ui.initial = Some i -> i <> "" ->
          (exists e0, In e0 (Ui.r_employees data) /\ ssid e0 = i) -> ssid e = i)
    /\ (Ui.unset (Ui.selectedEmployeeId Ui.initial) = true ->
        Some e = head (Ui.r_employees data))
    /\ (forall i, Ui.selectedEmployeeId Ui.initial = Some i -> i <> "" ->
          (forall e0, In e0 (Ui.r_employees data) -> ssid e0 <> i) ->
          Ui.selectedEmployeeId (Ui.loadEmployees Ui.initial f) = Some i
          /\ Some e = head (Ui.r_employees data)
          /\ forall e0, In e0 (Ui.r_employees data) ->
                        Ui.rowSelected e0
                          (Ui.selectedEmployeeId (Ui.loadEmployees Ui.initial f))
                        = false).
Proof.
  intros data f.
  apply (load_keeps_selection Ui.initial f data).
  - reflexivity.
  - discriminate.
Defined.

(** Clicking the row of an employee highlights that row and makes the
    detail panel show an employee with the same identifier, the clicked
    employee itself when identifiers are distinct. *)
Theorem click_selects (st : Ui.State) (e : Employee) :
  In e (Ui.employees st) ->
  let st' := Ui.updateSelected st e in
  Ui.employees st' = Ui.employees st
  /\ Ui.rowSelected e (Ui.selectedEmployeeId st') = true
  /\ exists d,
       App.selectedEmployee (Ui.employees st') (Ui.selectedEmployeeId st') = Some d
       /\ ssid d = ssid e
       /\ (NoDup (map ssid (Ui.employees st)) -> d = e).
Proof.
  intros Hin. cbn zeta. unfold Ui.updateSelected.
  cbn [Ui.employees Ui.selectedEmployeeId Ui.rowSelected].
  split; [reflexivity|]. split; [apply String.eqb_refl|].
  destruct (selectedEmployee_match (Ui.employees st) (ssid e) e Hin eq_refl)
    as (d & Hd & Hid).
  exists d. split; [exact Hd|]. split; [exact Hid|].
  intros Hnd. unfold App.selectedEmployee in Hd.
  destruct (find _ (Ui.employees st)) as [d'|] eqn:Hf.
  - inversion Hd; subst d'. apply find_ssid_some in Hf. destruct Hf as [Hind _].
    clear Hd. revert Hnd Hin Hind Hid. generalize (Ui.employees st) as l.
    induction l as [|x l IH]; [intros _ []|].
    cbn [map]. intros Hnd Hin Hind Hid. apply NoDup_cons in Hnd.
    destruct Hnd as [Hx Hnd].
    destruct Hin as [->|Hin], Hind as [->|Hind]; auto.
    + exfalso. apply Hx. rewrite <- Hid. apply list_elem_of_fmap.
      exists d. split; [reflexivity|apply list_elem_of_In, Hind].
    + exfalso. apply Hx. rewrite Hid. apply list_elem_of_fmap.
      exists e. split; [reflexivity|apply list_elem_of_In, Hin].
  - exfalso. apply (proj1 (find_ssid_none _ _) Hf e Hin eq_refl).
Qed.

Lemma click_selects_witness :
  let st := Ui.loadEmployees Ui.initial
              (Http.Resolved
                 {| Http.status := 200; Http.errorMember := None;
                    Http.json := {| Ui.r_employees :=
                                      [Sample.firedEmployee; Sample.activeEmployee];
                                    Ui.r_actions := [] |} |}) in
  let st' := Ui.updateSelected st Sample.activeEmployee in
  Ui.employees st' = Ui.employees st
  /\ Ui.rowSelected Sample.activeEmployee (Ui.selectedEmployeeId st') = true
  /\ exists d,
       App.selectedEmployee (Ui.employees st') (Ui.selectedEmployeeId st') = Some d
       /\ ssid d = ssid Sample.activeEmployee
       /\ (NoDup (map ssid (Ui.employees st)) -> d = Sample.activeEmployee).
Proof.
  intros st.
  apply (click_selects st Sample.activeEmployee).
  right. left. reflexivity.
Defined.

(** A load that the server answers with a status outside 200 to 299 ends
    on the error screen "Failed to fetch employees" when no employee was
    loaded before, and otherwise on the page with that text as banner and
    with the table, summary box and detail panel of before. *)
Theorem failed_load_screen (st : Ui.State) (res : Http.Response Ui.EmployeesResponse) :
  ~ 200 <= Http.status res <= 299 ->
  let st' := Ui.loadEmployees st (Http.Resolved res) in
  (Ui.employees st = [] ->
   Ui.render st' = Ui.ErrorScreen "Failed to fetch employees")
  /\ (Ui.employees st <> [] ->
      Ui.render st'
      = Ui.Page (Some "Failed to fetch employees") (Ui.analysisSummary st)
                (App.tableRows (Ui.employees st)) false
                (App.selectedEmployee (Ui.employees st) (Ui.selectedEmployeeId st))).
Proof.
  intros Hst. cbn zeta.
  assert (Hno : Http.ok res = false).
  { unfold Http.ok, Http.okStatus. destruct (Z.leb_spec 200 (Http.status res));
      destruct (Z.leb_spec (Http.status res) 299); try reflexivity. lia. }
  unfold Ui.loadEmployees, Http.fetchEmployees. rewrite Hno. cbn [negb].
  unfold Ui.render.
  cbn [Ui.loading Ui.error Ui.employees Ui.analysisSummary Ui.selectedEmployeeId
       Ui.shown String.eqb Ascii.eqb Bool.eqb].
  split.
  - intros ->. reflexivity.
  - intros Hne. destruct (Ui.employees st) as [|e l]; [contradiction|]. reflexivity.
Qed.

Lemma failed_load_screen_witness :
  Ui.render (Ui.loadEmployees Ui.initial
               (Http.Resolved (Server.errorMiddleware "db down"
                  {| Ui.r_employees := []; Ui.r_actions := [] |})))
  = Ui.ErrorScreen "Failed to fetch employees".
Proof.
  apply (proj1 (failed_load_screen Ui.initial
                  (Server.errorMiddleware "db down"
                     {| Ui.r_employees := []; Ui.r_actions := [] |})
                  ltac:(cbn; lia))).
  reflexivity.
Defined.

End Handlers.

Section AnalyzeAndApply.
Import Api.

(** The state cells after [handleAnalyze], case by case. *)
Lemma handleAnalyze_cells (st : Ui.State)
        (fa : Http.Fetched Ui.AnalyzeResponse)
        (fl : Http.Fetched Ui.EmployeesResponse) :
  let st' := Ui.handleAnalyze st fa fl in
  Ui.analyzing st' = false
  /\ Ui.budget st' = Ui.budget st
  /\ Ui.applyingAction st' = Ui.applyingAction st
  /\ (forall m, Http.analyzeEmployees fa = inl m ->
        Ui.error st' = Some m
        /\ Ui.employees st' = Ui.employees st
        /\ Ui.actions st' = Ui.actions st
        /\ Ui.selectedEmployeeId st' = Ui.selectedEmployeeId st
        /\ Ui.analysisSummary st' = Ui.analysisSummary st
        /\ Ui.loading st' = Ui.loading st)
  /\ (forall r, Http.analyzeEmployees fa = inr r ->
        Ui.analysisSummary st' = Some (Ui.r_summary r)
        /\ Ui.loading st' = false
        /\ (forall m, Http.fetchEmployees fl = inl m ->
              Ui.error st' = Some m
              /\ Ui.employees st' = Ui.employees st
              /\ Ui.actions st' = Ui.actions st)
        /\ (forall d, Http.fetchEmployees fl = inr d ->
              Ui.error st' = None
              /\ Ui.employees st' = Ui.r_employees d
              /\ Ui.actions st' = Ui.r_actions d)).
Proof.
  cbn zeta. unfold Ui.handleAnalyze.
  destruct (Http.analyzeEmployees fa) as [m|r] eqn:Ha.
  - cbn. do 3 (split; [reflexivity|]). split.
    + intros m' [= <-]. repeat split.
    + intros r' H. discriminate.
  - unfold Ui.loadEmployees.
    destruct (Http.fetchEmployees fl) as [m|d] eqn:Hl; cbn.
    + do 3 (split; [reflexivity|]). split; [intros m' H; discriminate|].
      intros r' [= <-]. do 2 (split; [reflexivity|]). split.
      * intros m' [= <-]. repeat split.
      * intros d' H. discriminate.
    + do 3 (split; [reflexivity|]). split; [intros m' H; discriminate|].
      intros r' [= <-]. do 2 (split; [reflexivity|]). split.
      * intros m' H. discriminate.
      * intros d' [= <-]. repeat split.
Qed.

Lemma render_cases (st : Ui.State) :
  Ui.loading st = false ->
  (exists m, Ui.render st = Ui.ErrorScreen m /\ Ui.employees st = []
             /\ Ui.error st = Some m)
  \/ Ui.render st
     = Ui.Page (Ui.shown (Ui.error st)) (Ui.analysisSummary st)
               (App.tableRows (Ui.employees st))
               (Nat.eqb (length (Ui.employees st)) 0)
               (App.selectedEmployee (Ui.employees st) (Ui.selectedEmployeeId st)).
Proof.
  intros Hl. unfold Ui.render. rewrite Hl.
  destruct (Ui.shown (Ui.error st)) as [m|] eqn:Hs; [|right; reflexivity].
  destruct (Ui.employees st) eqn:Hemp; [|right; reflexivity].
  left. exists m. split; [reflexivity|]. split; [reflexivity|].
  unfold Ui.shown in Hs. destruct (Ui.error st) as [m'|]; [|discriminate].
  destruct (String.eqb m' ""); [discriminate|]. congruence.
Qed.

(** [handleAnalyze] always ends with the button enabled again and leaves
    the budget untouched.  When the analysis request fails, only the error
    changes: employees, actions, selection and the summary of an earlier
    analysis stay as they were.  When it succeeds, the cell
    [analysisSummary] holds the new summary whatever the reload does, and
    the summary box shows it whenever the page is rendered; the page is
    replaced by the full-page error screen only when the reload failed with
    no employee loaded.  A failed reload keeps the employees of before and
    reports its own message. *)
Theorem handleAnalyze_outcomes (st : Ui.State)
        (fa : Http.Fetched Ui.AnalyzeResponse)
        (fl : Http.Fetched Ui.EmployeesResponse) :
  (let st' := Ui.handleAnalyze st fa fl in
  Ui.analyzing st' = false
  /\ Ui.budget st' = Ui.budget st
  /\ Ui.applyingAction st' = Ui.applyingAction st
  /\ (forall m, Http.analyzeEmployees fa = inl m ->
        Ui.error st' = Some m
        /\ Ui.employees st' = Ui.employees st
        /\ Ui.actions st' = Ui.actions st
        /\ Ui.selectedEmployeeId st' = Ui.selectedEmployeeId st
        /\ Ui.analysisSummary st' = Ui.analysisSummary st
        /\ Ui.loading st' = Ui.loading st)
  /\ (forall r, Http.analyzeEmployees fa = inr r ->
        Ui.analysisSummary st' = Some (Ui.r_summary r)
        /\ Ui.loading st' = false
        /\ (forall m, Http.fetchEmployees fl = inl m ->
              Ui.error st' = Some m
              /\ Ui.employees st' = Ui.employees st
              /\ Ui.actions st' = Ui.actions st)
        /\ (forall d, Http.fetchEmployees fl = inr d ->
              Ui.error st' = None
              /\ Ui.employees st' = Ui.r_employees d
              /\ Ui.actions st' = Ui.r_actions d)))
  /\ (forall r, Http.analyzeEmployees fa = inr r ->
        (exists m, Ui.render (Ui.handleAnalyze st fa fl) = Ui.ErrorScreen m
                   /\ Ui.employees st = []
                   /\ Http.fetchEmployees fl = inl m)
        \/ exists banner rows none detail,
             Ui.render (Ui.handleAnalyze st fa fl)
             = Ui.Page banner (Some (Ui.r_summary r)) rows none detail).
Proof.
  split; [apply handleAnalyze_cells|].
  intros r Hr.
  destruct (handleAnalyze_cells st fa fl) as (_ & _ & _ & _ & Hok).
  cbn zeta in Hok. destruct (Hok r Hr) as (Hsum & Hload & Hfail & _).
  destruct (render_cases _ Hload) as [(m & Hren & Hemp & Herr)|Hpage].
  - left. exists m. split; [exact Hren|].
    destruct (Http.fetchEmployees fl) as [m'|d] eqn:Hf.
    + destruct (Hfail m' eq_refl) as (He & Hemp' & _).
      rewrite Hemp' in Hemp. rewrite He in Herr. injection Herr as ->. auto.
    + exfalso. revert Herr. unfold Ui.handleAnalyze. rewrite Hr.
      unfold Ui.loadEmployees. rewrite Hf. cbn. discriminate.
  - right. rewrite Hsum in Hpage. eauto.
Qed.

Lemma handleAnalyze_outcomes_witness :
  let st := Ui.loadEmployees Ui.initial
              (Http.Resolved {| Http.status := 200; Http.errorMember := None;
                                Http.json := {| Ui.r_employees := [Sample.activeEmployee];
                                                Ui.r_actions := [] |} |}) in
  let fa := Http.Resolved
              {| Http.status := 400; Http.errorMember := Some (Http.ofString "Budget must be positive");
                 Http.json := {| Ui.r_summary :=
                                   {| Ui.projectedSavingsType := "";
                                      Ui.projectedSavingsFormatted := "" |} |} |} in
  let st' := Ui.handleAnalyze st fa (Http.Rejected "offline") in
  let r := {| Ui.r_summary :=
                {| Ui.projectedSavingsType := "savings";
                   Ui.projectedSavingsFormatted := "1,200" |} |} in
  let ok := Http.Resolved
              {| Http.status := 200; Http.errorMember := None; Http.json := r |} in
  (Ui.error st' = Some "Budget must be positive"
   /\ Ui.employees st' = Ui.employees st
   /\ Ui.actions st' = Ui.actions st
   /\ Ui.selectedEmployeeId st' = Ui.selectedEmployeeId st
   /\ Ui.analysisSummary st' = Ui.analysisSummary st
   /\ Ui.loading st' = Ui.loading st)
  /\ ((exists m, Ui.render (Ui.handleAnalyze st ok (Http.Rejected "offline"))
                 = Ui.ErrorScreen m
                 /\ Ui.employees st = []
                 /\ Http.fetchEmployees (A:=Ui.EmployeesResponse)
                      (Http.Rejected "offline") = inl m)
      \/ exists banner rows none detail,
           Ui.render (Ui.handleAnalyze st ok (Http.Rejected "offline"))
           = Ui.Page banner (Some (Ui.r_summary r)) rows none detail).
Proof.
  intros st fa st' r ok. split.
  - apply (proj1 (proj2 (proj2 (proj2
             (proj1 (handleAnalyze_outcomes st fa (Http.Rejected "offline"))))))).
    reflexivity.
  - apply (proj2 (handleAnalyze_outcomes st ok (Http.Rejected "offline")) r).
    reflexivity.
Defined.

(** Applying an action does nothing at all when there is no employee to
    select: no request is built and the state is unchanged.  Otherwise a
    request for the selected employee is built with the backend action of
    the button; the handler ends with the button enabled again; a failed
    request changes only the error, and a successful one is followed by the
    reload. *)
Theorem applySelected_outcomes {A} (st : Ui.State) (u : App.UIDecisionAction)
        (fa : Http.Fetched A) (fl : Http.Fetched Ui.EmployeesResponse) :
  let sel := App.selectedEmployee (Ui.employees st) (Ui.selectedEmployeeId st) in
  let st' := Ui.applySelected st u fa fl in
  (Ui.employees st = [] -> st' = st /\ App.handleApplyAction sel u = None)
  /\ (Ui.employees st <> [] ->
      (exists e rq, sel = Some e
                    /\ App.handleApplyAction sel u = Some rq
                    /\ App.rq_ssid rq = ssid e
                    /\ App.rq_action rq = App.mapUIActionToBackend u
                    /\ App.rq_note rq = None)
      /\ Ui.applyingAction st' = false
      /\ Ui.budget st' = Ui.budget st
      /\ Ui.analysisSummary st' = Ui.analysisSummary st
      /\ (forall m, Http.applyAction fa = inl m ->
            Ui.error st' = Some m
            /\ Ui.employees st' = Ui.employees st
            /\ Ui.actions st' = Ui.actions st
            /\ Ui.selectedEmployeeId st' = Ui.selectedEmployeeId st)
      /\ (forall x, Http.applyAction fa = inr x ->
            Ui.loading st' = false
            /\ (forall m, Http.fetchEmployees fl = inl m ->
                  Ui.error st' = Some m /\ Ui.employees st' = Ui.employees st)
            /\ (forall d, Http.fetchEmployees fl = inr d ->
                  Ui.error st' = None /\ Ui.employees st' = Ui.r_employees d))).
Proof.
  cbn zeta. unfold Ui.applySelected. split.
  - intros Hnil. rewrite Hnil.
    assert (Hsel : App.selectedEmployee [] (Ui.selectedEmployeeId st) = None).
    { unfold App.selectedEmployee. destruct (Ui.selectedEmployeeId st); reflexivity. }
    rewrite Hsel. split; reflexivity.
  - intros Hne.
    destruct (selectedEmployee_in (Ui.employees st) (Ui.selectedEmployeeId st) Hne)
      as (e & He & _).
    rewrite He. split.
    { exists e. eexists. split; [reflexivity|]. cbn [App.handleApplyAction].
      split; [reflexivity|]. repeat split. }
    destruct (Http.applyAction fa) as [m|x] eqn:Ha.
    + cbn. do 3 (split; [reflexivity|]). split.
      * intros m' [= <-]. repeat split.
      * intros x' H. discriminate.
    + unfold Ui.loadEmployees.
      destruct (Http.fetchEmployees fl) as [m|d] eqn:Hl; cbn.
      * do 3 (split; [reflexivity|]). split; [intros m' H; discriminate|].
        intros x' _. split; [reflexivity|]. split.
        -- intros m' [= <-]. repeat split.
        -- intros d' H. discriminate.
      * do 3 (split; [reflexivity|]). split; [intros m' H; discriminate|].
        intros x' _. split; [reflexivity|]. split.
        -- intros m' H. discriminate.
        -- intros d' [= <-]. repeat split.
Qed.

Lemma applySelected_outcomes_witness :
  let st := Ui.loadEmployees Ui.initial
              (Http.Resolved {| Http.status := 200; Http.errorMember := None;
                                Http.json := {| Ui.r_employees := [Sample.activeEmployee];
                                                Ui.r_actions := [] |} |}) in
  let st' := Ui.applySelected st App.increase
               (Http.Resolved (A:=unit)
                  {| Http.status := 404;
                     Http.errorMember := Some (Http.ofString "Employee not found");
                     Http.json := tt |})
               (Http.Rejected "offline") in
  (exists e rq,
      App.selectedEmployee (Ui.employees st) (Ui.selectedEmployeeId st) = Some e
      /\ App.handleApplyAction
           (App.selectedEmployee (Ui.employees st) (Ui.selectedEmployeeId st))
           App.increase = Some rq
      /\ App.rq_ssid rq = Api.ssid e
      /\ App.rq_action rq = App.mapUIActionToBackend App.increase
      /\ App.rq_note rq = None)
  /\ Ui.applyingAction st' = false
  /\ Ui.error st' = Some "Employee not found"
  /\ Ui.employees st' = Ui.employees st.
Proof.
  intros st st'.
  destruct (proj2 (applySelected_outcomes st App.increase
                     (Http.Resolved (A:=unit)
                        {| Http.status := 404;
                           Http.errorMember := Some (Http.ofString "Employee not found");
                           Http.json := tt |})
                     (Http.Rejected "offline")) ltac:(discriminate))
    as (Hrq & Happ & _ & _ & Hfail & _).
  destruct (Hfail "Employee not found" eq_refl) as (Herr & Hemp & _).
  split; [exact Hrq|]. split; [exact Happ|]. split; [exact Herr|exact Hemp].
Defined.

(** A handler that ends with an error has kept the employees, the actions
    and the selection it started with. *)
Lemma error_keeps_data_load (st : Ui.State) (f : Http.Fetched Ui.EmployeesResponse) :
  Ui.error (Ui.loadEmployees st f) <> None ->
  Ui.employees (Ui.loadEmployees st f) = Ui.employees st
  /\ Ui.actions (Ui.loadEmployees st f) = Ui.actions st
  /\ Ui.selectedEmployeeId (Ui.loadEmployees st f) = Ui.selectedEmployeeId st.
Proof.
  unfold Ui.loadEmployees. destruct (Http.fetchEmployees f); cbn; [auto|].
  intros H. contradiction.
Qed.

Lemma shown_none (e : option string) : e = None -> Ui.shown e = None.
Proof. intros ->. reflexivity. Qed.

(** Once employees are loaded, no handler brings the full-page error screen
    back, whatever the requests do: a state reached from a state with
    employees by [loadEmployees], [handleAnalyze] or the apply handler either
    still has the employees, actions and selection of before, or has no
    error; so it never renders as the error screen. *)
Theorem error_screen_only_before_first_load {A} (st : Ui.State)
        (u : App.UIDecisionAction)
        (fa : Http.Fetched Ui.AnalyzeResponse) (fp : Http.Fetched A)
        (fl : Http.Fetched Ui.EmployeesResponse) :
  Ui.employees st <> [] ->
  forall st',
    In st' [Ui.loadEmployees st fl; Ui.handleAnalyze st fa fl;
            Ui.applySelected st u fp fl] ->
    (Ui.error st' <> None ->
     Ui.employees st' = Ui.employees st
     /\ Ui.actions st' = Ui.actions st
     /\ Ui.selectedEmployeeId st' = Ui.selectedEmployeeId st)
    /\ forall m, Ui.render st' <> Ui.ErrorScreen m.
Proof.
  intros Hne st' Hin.
  assert (Hkeep : Ui.error st' <> None ->
                  Ui.employees st' = Ui.employees st
                  /\ Ui.actions st' = Ui.actions st
                  /\ Ui.selectedEmployeeId st' = Ui.selectedEmployeeId st).
  { cbn [In] in Hin. destruct Hin as [<-|[<-|[<-|[]]]].
    - apply error_keeps_data_load.
    - unfold Ui.handleAnalyze. destruct (Http.analyzeEmployees fa); cbn; [auto|].
      unfold Ui.loadEmployees. destruct (Http.fetchEmployees fl); cbn; [auto|].
      intros H. contradiction.
    - unfold Ui.applySelected.
      destruct (App.selectedEmployee _ _); [|auto].
      destruct (Http.applyAction fp); cbn; [auto|].
      unfold Ui.loadEmployees. destruct (Http.fetchEmployees fl); cbn; [auto|].
      intros H. contradiction. }
  split; [exact Hkeep|].
  intros m. unfold Ui.render. destruct (Ui.loading st'); [discriminate|].
  destruct (Ui.error st') as [msg|] eqn:He.
  - destruct (Hkeep ltac:(discriminate)) as (Hemp & _). rewrite Hemp.
    destruct (Ui.employees st); [contradiction|].
    destruct (Ui.shown (Some msg)); discriminate.
  - cbn. destruct (Ui.employees st'); discriminate.
Qed.

Lemma error_screen_only_before_first_load_witness :
  let st := Ui.loadEmployees Ui.initial
              (Http.Resolved {| Http.status := 200; Http.errorMember := None;
                                Http.json := {| Ui.r_employees := [Sample.activeEmployee];
                                                Ui.r_actions := [] |} |}) in
  Ui.render (Ui.loadEmployees st (Http.Rejected "offline"))
  <> Ui.ErrorScreen "offline".
Proof.
  intros st.
  apply (error_screen_only_before_first_load (A:=unit) st App.keep
           (Http.Rejected "offline") (Http.Rejected "offline")
           (Http.Rejected "offline")).
  - discriminate.
  - left. reflexivity.
Defined.

(** An error raised in a route of the server is answered by its error
    middleware; the page then shows "Internal server error" after an
    analysis or an applied action, and "Failed to fetch employees" after a
    load, never the text of the error itself. *)
Theorem server_error_reaches_user {A} (err : string) (st : Ui.State)
        (u : App.UIDecisionAction) (bodyA : Ui.AnalyzeResponse) (bodyP : A)
        (bodyL : Ui.EmployeesResponse) (fl : Http.Fetched Ui.EmployeesResponse) :
  Ui.error (Ui.handleAnalyze st (Http.Resolved (Server.errorMiddleware err bodyA)) fl)
  = Some "Internal server error"
  /\ Ui.error (Ui.loadEmployees st (Http.Resolved (Server.errorMiddleware err bodyL)))
     = Some "Failed to fetch employees"
  /\ (Ui.employees st <> [] ->
      Ui.error (Ui.applySelected st u
                  (Http.Resolved (Server.errorMiddleware err bodyP)) fl)
      = Some "Internal server error").
Proof.
  split; [reflexivity|]. split; [reflexivity|].
  intros Hne. unfold Ui.applySelected.
  destruct (selectedEmployee_in (Ui.employees st) (Ui.selectedEmployeeId st) Hne)
    as (e & He & _).
  rewrite He. reflexivity.
Qed.

Lemma server_error_reaches_user_witness :
  let st := Ui.loadEmployees Ui.initial
              (Http.Resolved {| Http.status := 200; Http.errorMember := None;
                                Http.json := {| Ui.r_employees := [Sample.activeEmployee];
                                                Ui.r_actions := [] |} |}) in
  Ui.error (Ui.applySelected st App.increase
              (Http.Resolved (Server.errorMiddleware "boom" tt))
              (Http.Rejected "offline"))
  = Some "Internal server error".
Proof.
  intros st.
  apply (proj2 (proj2 (server_error_reaches_user "boom" st App.increase
                  {| Ui.r_summary := {| Ui.projectedSavingsType := "";
                                        Ui.projectedSavingsFormatted := "" |} |}
                  tt {| Ui.r_employees := []; Ui.r_actions := [] |}
                  (Http.Rejected "offline")))).
  discriminate.
Defined.

End AnalyzeAndApply.
